(** * OContext: the context-assembly pipeline of [src/extension.ts]

    A shallow embedding of [buildIgnoreFilter], [looksBinary],
    [buildPromptToFile] and [buildPrompt], and the properties of the
    pipeline they implement: path expansion, ignore filtering, binary
    detection, the pre-flight size gate and the serialisation of the
    context document. *)

From Stdlib Require Import Strings.String Strings.Ascii Strings.Byte DecimalString
  Lists.List ZArith QArith Bool Lia.
Import ListNotations.

Local Open Scope string_scope.
Local Open Scope list_scope.
Local Open Scope Z_scope.

(** ** Binary detection *)

(** [buffer[i] === 0]; an index past the end reads [undefined], which is
    not [0]. *)
Definition isNul (b : option byte) : bool :=
  match b with
  | Some x00 => true
  | _ => false
  end.

(** The [for] loop of [looksBinary], started at index [i] with
    [remaining = max - i] iterations to go. *)
Fixpoint scanFrom (buffer : list byte) (i remaining : nat) : bool :=
  match remaining with
  | O => false
  | S r => if isNul (nth_error buffer i) then true else scanFrom buffer (S i) r
  end.

Definition looksBinary (buffer : list byte) : bool :=
  let max := Z.min (Z.of_nat (length buffer)) 8192 in
  scanFrom buffer 0 (Z.to_nat max).

(** ** The host environment

    The pipeline talks to Node's [fs] and [path] modules, to the VS Code
    workspace API and to the npm package [ignore].  None of them belongs
    to the repository; the embedding takes them as one record, so that
    every statement below holds for whatever they do.  A call that can
    throw (or a promise that can reject) returns [option], [None] being
    the exception. *)

(** The two fields of [fs.Stats] the code reads. *)
Record Stats : Type := mkStats {
  isDirectory : bool;
  size : Z
}.

Record Host : Type := mkHost {
  (** [fs.promises.stat] and [fs.statSync] *)
  stat : string -> option Stats;
  (** [fs.promises.readFile(p)], a [Buffer] *)
  readFile : string -> option (list byte);
  (** [buffer.toString("utf8")]; V8 refuses strings beyond its maximal length *)
  toString : list byte -> option string;
  (** [vscode.workspace.findFiles(new RelativePattern(p, "**/*"))], as [fsPath]s *)
  findFiles : string -> option (list string);
  (** [path.relative(from, to)] *)
  relative : string -> string -> string;
  (** [path.join(a, b)] *)
  join : string -> string -> string;
  (** [ignore().add(content).ignores(p)] *)
  ignores : string -> string -> option bool;
  (** [vscode.workspace.workspaceFolders?.[0]?.uri.fsPath] *)
  workspaceFolder : option string
}.

(** The elements of the [files] array. *)
Record FileEntry : Type := mkEntry {
  abs : string;
  rel : string
}.

Definition LF : string := String (ascii_of_nat 10) EmptyString.

Definition fence : string := "```".

(** A filter as returned by [buildIgnoreFilter]: a JavaScript closure, which
    may throw when called. *)
Definition Filter : Type := string -> option bool.

(** [() => true] *)
Definition allowAll : Filter := fun _ => Some true.

(** [out.write(chunk)] on the write stream, modelled by the text written so
    far. *)
Definition write (out chunk : string) : string := out ++ chunk.

(** [files.push(e)] *)
Definition push (files : list FileEntry) (e : FileEntry) : list FileEntry :=
  files ++ [e].

(** [rawFiles.filter((u) => allow(u.fsPath))]: the first call of [allow] that
    throws ends the whole [filter]. *)
Fixpoint filterAllowed (allow : Filter) (rawFiles : list string)
  : option (list string) :=
  match rawFiles with
  | [] => Some []
  | u :: rest =>
      match allow u with
      | None => None
      | Some keep =>
          match filterAllowed allow rest with
          | None => None
          | Some all => Some (if keep then u :: all else all)
          end
      end
  end.

(** The answer of the modal dialog: [choice !== "Yes"] bails out. *)
Definition isYes (choice : option string) : bool :=
  match choice with
  | Some answer => String.eqb answer "Yes"
  | None => false
  end.

Section Pipeline.

Variable h : Host.

(** [buildIgnoreFilter], lines 7-17.  [readFile(gitignorePath, "utf8")] is a
    read followed by the decoding of the buffer; either failure lands in
    the [catch]. *)
Definition buildIgnoreFilter (root : string) : Filter :=
  let gitignorePath := join h root ".gitignore" in
  match readFile h gitignorePath with
  | Some buffer =>
      match toString h buffer with
      | Some content =>
          fun p => option_map negb (ignores h content (relative h root p))
      | None => allowAll
      end
  | None => allowAll
  end.

(** [const root = ...workspaceFolders?.[0]?.uri.fsPath || ""] *)
Definition workspaceRoot : string :=
  match workspaceFolder h with
  | Some fsPath => fsPath
  | None => ""
  end.

(** [root ? await buildIgnoreFilter(root) : () => true] *)
Definition filterFor (root : string) : Filter :=
  if String.eqb root "" then allowAll else buildIgnoreFilter root.

(** One turn of the loop [for (const p of fsPaths)], lines 168-185 (and
    269-286): the [try] body, and the [catch] that only logs. *)
Definition expandStep (root : string) (allow : Filter)
    (files : list FileEntry) (p : string) : list FileEntry :=
  match stat h p with
  | Some st =>
      if isDirectory st then
        match findFiles h p with
        | Some rawFiles =>
            match filterAllowed allow rawFiles with
            | Some all =>
                fold_left
                  (fun fs u => push fs {| abs := u; rel := relative h root u |})
                  all files
            | None => files
            end
        | None => files
        end
      else push files {| abs := p; rel := relative h root p |}
  | None => files
  end.

Definition expandPaths (root : string) (allow : Filter)
    (fsPaths : list string) : list FileEntry :=
  fold_left (expandStep root allow) fsPaths [].

(** The [files] array both entry points build from the selection. *)
Definition selectedFiles (fsPaths : list string) : list FileEntry :=
  expandPaths workspaceRoot (filterFor workspaceRoot) fsPaths.

(** *** Pre-flight checks, lines 190-209 *)

Definition totalFiles (files : list FileEntry) : Z :=
  Z.of_nat (length files).

(** The loop of lines 194-201: a failed [statSync] leaves the sum as it
    is. *)
Definition estimatedBytes (files : list FileEntry) : Z :=
  fold_left
    (fun acc f =>
       match stat h (abs f) with
       | Some st => acc + size st
       | None => acc
       end)
    files 0.

(** [estimatedBytes / 1024 / 1024]: a division of numbers, not of integers;
    dividing by a power of two is exact on doubles. *)
Definition estimatedMB (files : list FileEntry) : Q :=
  (inject_Z (estimatedBytes files) / inject_Z 1024 / inject_Z 1024)%Q.

(** The condition of line 205. *)
Definition requiresConfirmation (files : list FileEntry) : bool :=
  (totalFiles files >? 1000)
  || negb (Qle_bool (estimatedMB files) (inject_Z 10)).

(** *** Serialisation *)

(** The template literal of lines 218-220 and 290-292. *)
Definition documentHeader (files : list FileEntry) : string :=
  "# Context Generation Request" ++ LF ++ LF
  ++ "## Project Structure:" ++ LF
  ++ fence ++ LF
  ++ String.concat LF (map rel files) ++ LF
  ++ fence ++ LF ++ LF
  ++ "## File Contents:" ++ LF ++ LF.

(** The literal of lines 244 and 306. *)
Definition unreadableSection (rel : string) : string :=
  "### " ++ rel ++ LF ++ fence ++ LF
  ++ "[unreadable]" ++ LF ++ fence ++ LF ++ LF.

(** One turn of the streaming loop, lines 224-246.  The section header is
    on the stream before the buffer is decoded, so a decoding failure
    reaches the [catch] with the header already written. *)
Definition streamFile (out : string) (f : FileEntry) : string :=
  match readFile h (abs f) with
  | Some buffer =>
      if looksBinary buffer then out
      else
        let out1 := write out ("### " ++ rel f ++ LF ++ fence ++ LF) in
        match toString h buffer with
        | Some content =>
            let out2 := write out1 content in
            write out2 (LF ++ fence ++ LF ++ LF)
        | None => write out1 (unreadableSection (rel f))
        end
  | None => write out (unreadableSection (rel f))
  end.

(** Lines 213-253: the text on the stream when it is ended. *)
Definition streamDocument (files : list FileEntry) : string :=
  let out := write "" (documentHeader files) in
  fold_left streamFile files out.

(** [buildPromptToFile], lines 157-256.  The result is the content of
    [outputFile] as far as this call made it: [None] when
    [fs.createWriteStream] was never reached.  What [stat], [findFiles], the
    filter, [readFile] and [toString] throw is caught inside the body, and
    the write stream is taken to accept what is written to it and not to be
    one of the files read, so the call returns normally. *)
Definition buildPromptToFile (fsPaths : list string)
    (choice : option string) : option string :=
  let files := selectedFiles fsPaths in
  if requiresConfirmation files then
    if negb (isYes choice) then None
    else Some (streamDocument files)
  else Some (streamDocument files).

(** One turn of the loop of [buildPrompt], lines 294-308. *)
Definition appendFile (prompt : string) (f : FileEntry) : string :=
  match readFile h (abs f) with
  | Some buffer =>
      if looksBinary buffer then prompt
      else
        match toString h buffer with
        | Some content =>
            prompt ++ ("### " ++ rel f ++ LF ++ fence ++ LF
                       ++ content ++ LF ++ fence ++ LF ++ LF)
        | None => prompt ++ unreadableSection (rel f)
        end
  | None => prompt ++ unreadableSection (rel f)
  end.

(** [buildPrompt], lines 258-312. *)
Definition buildPrompt (fsPaths : list string) : string :=
  let files := selectedFiles fsPaths in
  let prompt := documentHeader files in
  fold_left appendFile files prompt.

End Pipeline.

(** ** Node's [path] module, POSIX flavour

    [path.relative] and [path.resolve] as Node documents them, on the
    segments of a path: the empty string stands for the working directory
    of the process, a relative path is resolved against it, and the result
    climbs with [..] from [from] to the deepest common directory. *)

Module Posix.

(** [s.split("/")] *)
Fixpoint split (s : string) : list string :=
  match s with
  | EmptyString => [EmptyString]
  | String c s' =>
      if Ascii.eqb c "/" then EmptyString :: split s'
      else
        match split s' with
        | seg :: rest => String c seg :: rest
        | [] => [String c EmptyString]
        end
  end.

Definition isAbsolute (p : string) : bool :=
  match p with
  | String c _ => Ascii.eqb c "/"
  | EmptyString => false
  end.

(** One segment of [normalizeString] on an absolute path: empty segments
    and [.] vanish, [..] drops the segment before it (and stays at the
    root). *)
Definition normalizeStep (acc : list string) (seg : string) : list string :=
  if String.eqb seg "" then acc
  else if String.eqb seg "." then acc
  else if String.eqb seg ".." then removelast acc
  else acc ++ [seg].

Definition normalize (segs : list string) : list string :=
  fold_left normalizeStep segs [].

(** The segments of [path.resolve(p)] below the root. *)
Definition resolve (cwd p : string) : list string :=
  if isAbsolute p then normalize (split p)
  else normalize (split cwd ++ split p).

Fixpoint stripCommon (from to : list string) : list string * list string :=
  match from, to with
  | f :: from', t :: to' =>
      if String.eqb f t then stripCommon from' to' else (from, to)
  | _, _ => (from, to)
  end.

Definition relative (cwd from to : string) : string :=
  if String.eqb from to then ""
  else
    let (up, down) := stripCommon (resolve cwd from) (resolve cwd to) in
    String.concat "/" (map (fun _ => "..") up ++ down).

(** A segment that can open a relative path: not empty, no leading [/]. *)
Definition opens (seg : string) : Prop :=
  seg <> "" /\ isAbsolute seg = false.

(** [path.join(dir, name)] for a normalised directory and a plain name. *)
Definition join (dir name : string) : string := dir ++ "/" ++ name.

End Posix.

(** ** The npm package [ignore]

    Since its version 5 [ignores] checks its argument first and throws on a
    path that is empty or not in the form [path.relative] gives to a path
    below its base ([REGEX_TEST_INVALID_PATH], [/^\.*\/|^\.+$/]).  Of the
    pattern dialect only plain names are modelled: a line without [/] and
    without wildcard ignores every path that has a segment of that name. *)

Module NodeIgnore.

Fixpoint dropDots (p : string) : string :=
  match p with
  | String c p' => if Ascii.eqb c "." then dropDots p' else p
  | EmptyString => EmptyString
  end.

Definition isNotRelative (p : string) : bool :=
  match dropDots p with
  | String c _ => Ascii.eqb c "/"
  | EmptyString => negb (String.eqb p "")
  end.

Definition checkPath (p : string) : bool :=
  negb (String.eqb p "") && negb (isNotRelative p).

(** [content.split("\n")] *)
Fixpoint lines (content : string) : list string :=
  match content with
  | EmptyString => [EmptyString]
  | String c s' =>
      if Ascii.eqb c (ascii_of_nat 10) then EmptyString :: lines s'
      else
        match lines s' with
        | l :: rest => String c l :: rest
        | [] => [String c EmptyString]
        end
  end.

Definition namePatterns (content : string) : list string :=
  filter (fun l => negb (String.eqb l "")) (lines content).

Definition matchesName (content p : string) : bool :=
  existsb
    (fun seg => existsb (String.eqb seg) (namePatterns content))
    (Posix.split p).

(** With the check of version 5 and later. *)
Definition ignores (content p : string) : option bool :=
  if checkPath p then Some (matchesName content p) else None.

(** Without it (version 4, or [allowRelativePaths]). *)
Definition ignoresUnchecked (content p : string) : option bool :=
  Some (matchesName content p).

End NodeIgnore.

(** ** Concrete hosts *)

Inductive Node : Type :=
| Directory (found : list string)
| Regular (bytes : Z) (data : option (list byte)).

Definition Disk : Type := list (string * Node).

Fixpoint lookup (d : Disk) (p : string) : option Node :=
  match d with
  | [] => None
  | (q, n) :: d' => if String.eqb q p then Some n else lookup d' p
  end.

Definition diskStat (d : Disk) (p : string) : option Stats :=
  match lookup d p with
  | Some (Directory _) => Some {| isDirectory := true; size := 4096 |}
  | Some (Regular bytes _) => Some {| isDirectory := false; size := bytes |}
  | None => None
  end.

Definition diskRead (d : Disk) (p : string) : option (list byte) :=
  match lookup d p with
  | Some (Regular _ data) => data
  | _ => None
  end.

Definition diskFind (d : Disk) (p : string) : option (list string) :=
  match lookup d p with
  | Some (Directory found) => Some found
  | _ => Some []
  end.

(** A host over a disk, for ASCII data of moderate size. *)
Definition nodeHost (engine : string -> string -> option bool)
    (cwd : string) (folder : option string) (d : Disk) : Host :=
  {| stat := diskStat d;
     readFile := diskRead d;
     toString := fun buffer => Some (string_of_list_byte buffer);
     findFiles := diskFind d;
     relative := Posix.relative cwd;
     join := Posix.join;
     ignores := engine;
     workspaceFolder := folder |}.

(** The size of a node is not negative and covers the data a read gives. *)
Definition nodeCoherent (n : Node) : bool :=
  match n with
  | Directory _ => true
  | Regular bytes data =>
      (0 <=? bytes)
      && match data with
         | Some buffer => Z.of_nat (length buffer) <=? bytes
         | None => true
         end
  end.

Definition diskCoherent (d : Disk) : bool :=
  forallb (fun entry => nodeCoherent (snd entry)) d.

(** A regular, readable file holding [text]. *)
Definition textFile (text : string) : Node :=
  Regular (Z.of_nat (String.length text)) (Some (list_byte_of_string text)).

(** A host whose views of a file agree: [stat] knows every file that can be
    read and reports at least the bytes a read returns, sizes are not
    negative, and a buffer within the limit of the pre-flight check is far
    below the maximal string length, so it decodes. *)
Record Coherent (h : Host) : Prop := mkCoherent {
  size_nonneg :
    forall p st, stat h p = Some st -> 0 <= size st;
  read_within_size :
    forall p buffer, readFile h p = Some buffer ->
      exists st, stat h p = Some st /\ Z.of_nat (length buffer) <= size st;
  decodes_small :
    forall buffer, Z.of_nat (length buffer) <= 10 * 2 ^ 20 ->
      toString h buffer <> None
}.

(** What one entry adds to [estimatedBytes]. *)
Definition sizeOrZero (h : Host) (f : FileEntry) : Z :=
  match stat h (abs f) with
  | Some st => size st
  | None => 0
  end.

(** The text one turn of the streaming loop puts on the stream. *)
Definition sectionOf (h : Host) (f : FileEntry) : string :=
  streamFile h "" f.

Definition sectionsOf (h : Host) (files : list FileEntry) : string :=
  fold_right (fun f rest => (sectionOf h f ++ rest)%string) "" files.

(** The entries one input path contributes to [files]. *)
Definition entriesOf (h : Host) (root : string) (allow : Filter)
    (p : string) : list FileEntry :=
  expandStep h root allow [] p.

(** *** Sample selections *)

(** A workspace [/w] that ignores [b.bin], and a folder [/o] outside it. *)
Definition sampleDisk : Disk :=
  [ ("/w", Directory ["/w/a.txt"; "/w/b.bin"; "/w/.gitignore"]);
    ("/w/a.txt", textFile "hello");
    ("/w/b.bin", Regular 3 (Some [x00; x01; x02]));
    ("/w/.gitignore", textFile "b.bin");
    ("/w/gone.txt", Regular 7 None);
    ("/o", Directory ["/o/b.bin"]);
    ("/o/b.bin", textFile "out") ].

Definition sampleHost : Host :=
  nodeHost NodeIgnore.ignores "/home/u" (Some "/w") sampleDisk.

Definition uncheckedHost : Host :=
  nodeHost NodeIgnore.ignoresUnchecked "/home/u" (Some "/w") sampleDisk.

(** No workspace folder is open; the process runs in [/home/u]. *)
Definition rootlessHost : Host :=
  nodeHost NodeIgnore.ignores "/home/u" None
    [ ("/home/u/a.txt", textFile "hello") ].

(** [/big/f0] ... [/big/f1000], one byte each. *)
Definition manyPaths : list string :=
  map (fun i => ("/big/f" ++ NilEmpty.string_of_uint (Nat.to_uint i))%string)
      (seq 0 1001).

Definition manyHost : Host :=
  nodeHost NodeIgnore.ignores "/home/u" (Some "/big")
    (map (fun p => (p, textFile "x")) manyPaths).

(** Five files of 1 KB in all. *)
Definition fivePaths : list string :=
  ["/s/1"; "/s/2"; "/s/3"; "/s/4"; "/s/5"].

Definition fiveHost : Host :=
  nodeHost NodeIgnore.ignores "/home/u" (Some "/s")
    [ ("/s/1", Regular 200 None); ("/s/2", Regular 200 None);
      ("/s/3", Regular 200 None); ("/s/4", Regular 200 None);
      ("/s/5", Regular 224 None) ].

(** ** The command handlers, lines 42-154 *)

(** The [if]/[else if]/[else] of lines 51-65 that settles [selectedUris]:
    a non-empty [uris], else [uri], else the document of the active
    editor. *)
Definition selectedUris (uri : option string) (uris : option (list string))
    (activeEditor : option string) : list string :=
  match uris with
  | Some (u :: us) => u :: us
  | _ =>
      match uri with
      | Some u => [u]
      | None =>
          match activeEditor with
          | Some document => [document]
          | None => []
          end
      end
  end.

(** [/[-:]/] *)
Definition isDashOrColon (c : ascii) : bool :=
  Ascii.eqb c "-" || Ascii.eqb c ":".

(** [s.replace(/[-:]/g, "")] *)
Fixpoint stripDashColon (s : string) : string :=
  match s with
  | EmptyString => EmptyString
  | String c s' =>
      if isDashOrColon c then stripDashColon s'
      else String c (stripDashColon s')
  end.

(** [\d] *)
Definition isDigit (c : ascii) : bool :=
  (48 <=? nat_of_ascii c)%nat && (nat_of_ascii c <=? 57)%nat.

(** Whether the whole of [s] matches [\.\d{3}Z]. *)
Definition isMillisTail (s : string) : bool :=
  match s with
  | String dot (String d1 (String d2 (String d3 (String z EmptyString)))) =>
      Ascii.eqb dot "." && isDigit d1 && isDigit d2 && isDigit d3
      && Ascii.eqb z "Z"
  | _ => false
  end.

(** [s.replace(/\.\d{3}Z$/, "")]: the match, if any, is the end of [s]. *)
Fixpoint dropMillis (s : string) : string :=
  match s with
  | EmptyString => EmptyString
  | String c s' => if isMillisTail s then EmptyString else String c (dropMillis s')
  end.

(** The [ts] of lines 89-92 and 126-129, from [now.toISOString()]. *)
Definition timestamp (iso : string) : string :=
  dropMillis (stripDashColon iso).

(** A [Date], in UTC. *)
Record Instant : Type := mkInstant {
  year : nat;
  month : nat;
  day : nat;
  hours : nat;
  minutes : nat;
  seconds : nat;
  milliseconds : nat
}.

Definition digit (n : nat) : ascii := ascii_of_nat (48 + n mod 10).

Definition pad2 (n : nat) : string :=
  String (digit (n / 10)) (String (digit n) EmptyString).

Definition pad3 (n : nat) : string := String (digit (n / 100)) (pad2 n).

Definition pad4 (n : nat) : string := String (digit (n / 1000)) (pad3 n).

(** [Date.prototype.toISOString] for the years 0 to 9999:
    [YYYY-MM-DDTHH:mm:ss.sssZ]. *)
Definition toISOString (t : Instant) : string :=
  pad4 (year t) ++ "-" ++ pad2 (month t) ++ "-" ++ pad2 (day t)
  ++ "T" ++ pad2 (hours t) ++ ":" ++ pad2 (minutes t) ++ ":"
  ++ pad2 (seconds t) ++ "." ++ pad3 (milliseconds t) ++ "Z".

(** What a command reads from the editor, the OS and the clock, and the
    answers it gets. *)
Record Desk : Type := mkDesk {
  (** [vscode.window.activeTextEditor?.document.uri.fsPath] *)
  activeEditor : option string;
  (** [os.tmpdir()] *)
  tmpdir : string;
  (** whether [fs.promises.mkdir(outDir, { recursive: true })] resolves *)
  mkdir : string -> bool;
  (** [new Date().toISOString()] *)
  clock : string;
  (** the size in bytes of a file holding a text *)
  byteLength : string -> Z;
  (** whether [vscode.window.showTextDocument] resolves for a file, given
      its text ([None]: there is no such file) *)
  showTextDocument : string -> option string -> bool;
  (** whether the command [revealFileInOS] resolves *)
  revealFileInOS : string -> bool;
  (** the answer to the modal warning of the pre-flight check *)
  dialog : option string
}.

(** The message a command ends with; the item count is the one the
    information messages print. *)
Inductive Notice : Type :=
| NoSelectionWarning
| TooLargeWarning
| CopiedInformation (items : nat)
| GeneratedInformation (items : nat)
| GenerationError.

(** What a command leaves behind: its message, the text it streamed to the
    context file ([None]: the write stream was not created) and the text it
    put on the clipboard ([None]: the clipboard was not written). *)
Record Outcome : Type := mkOutcome {
  notice : Notice;
  streamed : option string;
  clipboard : option string
}.

Section Handlers.

Variable h : Host.
Variable d : Desk.

(** [workspaceFolders?.[0]?.uri.fsPath || os.tmpdir()] *)
Definition wsRoot : string :=
  match workspaceFolder h with
  | Some fsPath => if String.eqb fsPath "" then tmpdir d else fsPath
  | None => tmpdir d
  end.

Definition outDir : string := join h wsRoot ".ocontext".

Definition contextFile : string :=
  join h outDir ("context_" ++ timestamp (clock d) ++ ".txt").

(** The text of the context file once [buildPromptToFile] has returned
    [result]: what was streamed, or else what the disk held before. *)
Definition textOnDisk (result : option string) : option string :=
  match result with
  | Some text => Some text
  | None =>
      match readFile h contextFile with
      | Some buffer => toString h buffer
      | None => None
      end
  end.

(** [(await fs.promises.stat(contextFile)).size] after the run. *)
Definition sizeOnDisk (result : option string) : option Z :=
  match result with
  | Some text => Some (byteLength d text)
  | None => option_map size (stat h contextFile)
  end.

(** The clipboard branch, lines 82-118, run inside the [try] of line 75. *)
Definition clipboardBranch (selected : list string) : Outcome :=
  if negb (mkdir d outDir) then
    {| notice := GenerationError; streamed := None; clipboard := None |}
  else
    let result := buildPromptToFile h selected (dialog d) in
    match sizeOnDisk result with
    | None =>
        {| notice := GenerationError; streamed := result; clipboard := None |}
    | Some bytes =>
        let sizeMB := (inject_Z bytes / inject_Z 1024 / inject_Z 1024)%Q in
        if negb (Qle_bool sizeMB (inject_Z 5)) then
          {| notice := TooLargeWarning; streamed := result;
             clipboard := None |}
        else
          match textOnDisk result with
          | Some text =>
              {| notice := CopiedInformation (length selected);
                 streamed := result; clipboard := Some text |}
          | None =>
              {| notice := GenerationError; streamed := result;
                 clipboard := None |}
          end
    end.

(** The file branch, lines 120-144. *)
Definition fileBranch (selected : list string) : Outcome :=
  if negb (mkdir d outDir) then
    {| notice := GenerationError; streamed := None; clipboard := None |}
  else
    let result := buildPromptToFile h selected (dialog d) in
    if negb (showTextDocument d contextFile (textOnDisk result)) then
      {| notice := GenerationError; streamed := result; clipboard := None |}
    else if negb (revealFileInOS d contextFile) then
      {| notice := GenerationError; streamed := result; clipboard := None |}
    else
      {| notice := GeneratedInformation (length selected);
         streamed := result; clipboard := None |}.

(** The handler [handlerFactory(copyToClipboard)] returns, called with
    [uri] and [uris]. *)
Definition handlerFactory (copyToClipboard : bool) (uri : option string)
    (uris : option (list string)) : Outcome :=
  match selectedUris uri uris (activeEditor d) with
  | [] =>
      {| notice := NoSelectionWarning; streamed := None; clipboard := None |}
  | u :: us =>
      if copyToClipboard then clipboardBranch (u :: us)
      else fileBranch (u :: us)
  end.

End Handlers.

(** A host over a disk whose decoder gives up beyond [limit] bytes, as V8
    does beyond its maximal string length. *)
Definition limitedHost (limit : Z) (folder : option string) (disk : Disk)
  : Host :=
  {| stat := diskStat disk;
     readFile := diskRead disk;
     toString := fun buffer =>
       if Z.of_nat (length buffer) <=? limit
       then Some (string_of_list_byte buffer) else None;
     findFiles := diskFind disk;
     relative := Posix.relative "/home/u";
     join := Posix.join;
     ignores := NodeIgnore.ignores;
     workspaceFolder := folder |}.

(** A desk on which everything works and the dialog is dismissed. *)
Definition sampleDesk : Desk :=
  {| activeEditor := None;
     tmpdir := "/tmp";
     mkdir := fun _ => true;
     clock := "2025-11-05T18:24:24.123Z";
     byteLength := fun text => Z.of_nat (String.length text);
     showTextDocument := fun _ text =>
       match text with Some _ => true | None => false end;
     revealFileInOS := fun _ => true;
     dialog := None |}.

(** The 1001 files again, beside a context file left by an earlier command
    of the same second. *)
Definition staleHost : Host :=
  nodeHost NodeIgnore.ignores "/home/u" (Some "/big")
    (("/big/.ocontext/context_20251105T182424.txt", textFile "stale")
     :: map (fun p => (p, textFile "x")) manyPaths).

(** The filter kept exactly the files it answered [true] for. *)
Definition allowed (allow : Filter) (u : string) : bool :=
  match allow u with
  | Some true => true
  | _ => false
  end.

(** * Properties *)

(** ** Binary detection *)

Lemma isNul_true (b : option byte) : isNul b = true <-> b = Some x00.
Proof.
  split.
  - destruct b as [c|]; [destruct c|]; simpl; intro E; congruence.
  - intros ->. reflexivity.
Qed.

Lemma scanFrom_true (buffer : list byte) (n i : nat) :
  scanFrom buffer i n = true <->
  exists j : nat, (i <= j < i + n)%nat /\ nth_error buffer j = Some x00.
Proof.
  revert i. induction n as [|n IH]; intro i; simpl.
  - split; [discriminate|]. intros (j & Hj & _). lia.
  - destruct (isNul (nth_error buffer i)) eqn:E.
    + split; [intros _|reflexivity].
      exists i. split; [lia|]. now apply isNul_true.
    + rewrite IH. split.
      * intros (j & Hj & Hz). exists j. split; [lia|exact Hz].
      * intros (j & Hj & Hz).
        assert (j <> i) as Hne.
        { intros ->. apply isNul_true in Hz. congruence. }
        exists j. split; [lia|exact Hz].
Qed.

Lemma scanFrom_ext (b1 b2 : list byte) (n i : nat) :
  (forall j, (i <= j < i + n)%nat -> nth_error b1 j = nth_error b2 j) ->
  scanFrom b1 i n = scanFrom b2 i n.
Proof.
  revert i. induction n as [|n IH]; intros i H; simpl; [reflexivity|].
  rewrite (H i) by lia.
  destruct (isNul (nth_error b2 i)); [reflexivity|].
  apply IH. intros j Hj. apply H. lia.
Qed.

Lemma looksBinary_window (b1 b2 : list byte) :
  firstn (Z.to_nat 8192) b1 = firstn (Z.to_nat 8192) b2 ->
  looksBinary b1 = looksBinary b2.
Proof.
  intro H. unfold looksBinary.
  set (w := Z.to_nat 8192) in *.
  assert (forall b : list byte,
             Z.to_nat (Z.min (Z.of_nat (length b)) 8192)
             = Nat.min (length b) w) as Hmin.
  { intro b. unfold w. lia. }
  rewrite !Hmin.
  assert (forall j, (j < w)%nat -> nth_error b1 j = nth_error b2 j) as Hnth.
  { intros j Hj.
    pose proof (nth_error_firstn w b1 j) as E1.
    pose proof (nth_error_firstn w b2 j) as E2.
    destruct (Nat.ltb_spec j w); [congruence|lia]. }
  assert (length (firstn w b1) = length (firstn w b2)) as Hlen by now rewrite H.
  rewrite !length_firstn in Hlen.
  rewrite <- (Nat.min_comm w), <- (Nat.min_comm w), <- Hlen.
  apply scanFrom_ext. intros j Hj. apply Hnth. lia.
Qed.

(** C2: [looksBinary] answers [true] exactly when one of the first
    [min(length, 8192)] bytes of the buffer is 0x00, and two buffers that
    agree on their first 8192 bytes get the same answer: nothing beyond the
    window is inspected.  The function takes the buffer and nothing else, so
    it neither performs I/O nor keeps state. *)
Theorem looksBinary_iff_nul_in_window (buffer : list byte) :
  (looksBinary buffer = true <->
   exists i : nat,
     Z.of_nat i < Z.min (Z.of_nat (length buffer)) 8192
     /\ nth_error buffer i = Some x00)
  /\ (forall other : list byte,
         firstn (Z.to_nat 8192) other = firstn (Z.to_nat 8192) buffer ->
         looksBinary other = looksBinary buffer).
Proof.
  split.
  - unfold looksBinary. rewrite scanFrom_true. split.
    + intros (j & Hj & Hz). exists j. split; [lia|exact Hz].
    + intros (j & Hj & Hz). exists j. split; [lia|exact Hz].
  - intros other H. now apply looksBinary_window.
Qed.

(** A buffer of 8192 text bytes followed by a NUL is text, and stays so
    whatever follows the window. *)
Lemma looksBinary_iff_nul_in_window_witness :
  looksBinary (repeat x61 (Z.to_nat 8192) ++ [x00])
  = looksBinary (repeat x61 (Z.to_nat 8192)).
Proof.
  apply (proj2 (looksBinary_iff_nul_in_window (repeat x61 (Z.to_nat 8192)))).
  vm_compute. reflexivity.
Defined.

Example looksBinary_nul : looksBinary [x68; x69; x00; x21] = true.
Proof. reflexivity. Qed.

Example looksBinary_text : looksBinary [x68; x69; x21] = false.
Proof. reflexivity. Qed.

Example looksBinary_late_nul :
  looksBinary (repeat x61 (Z.to_nat 8192) ++ [x00]) = false.
Proof. vm_compute. reflexivity. Qed.

Example looksBinary_last_of_window :
  looksBinary (repeat x61 (Z.to_nat 8191) ++ [x00]) = true.
Proof. vm_compute. reflexivity. Qed.

(** ** The ignore filter *)

(** C6: when the ignore file of the root cannot be read, the filter that
    [buildIgnoreFilter] returns allows every path; so does the filter the
    pipeline uses for that root. *)
Theorem buildIgnoreFilter_fail_open (h : Host) (root : string) :
  readFile h (join h root ".gitignore") = None ->
  forall p : string,
    buildIgnoreFilter h root p = Some true
    /\ filterFor h root p = Some true.
Proof.
  intros Hread p.
  assert (buildIgnoreFilter h root p = Some true) as Hb.
  { unfold buildIgnoreFilter. rewrite Hread. reflexivity. }
  split; [exact Hb|].
  unfold filterFor. destruct (String.eqb root ""); [reflexivity|exact Hb].
Qed.

(** [/o] holds no [.gitignore]: with [/o] as root even [b.bin] is allowed. *)
Lemma buildIgnoreFilter_fail_open_witness :
  buildIgnoreFilter sampleHost "/o" "/o/b.bin" = Some true
  /\ filterFor sampleHost "/o" "/o/b.bin" = Some true.
Proof.
  apply (buildIgnoreFilter_fail_open sampleHost "/o").
  reflexivity.
Defined.

(** C9, as the code has it: once the ignore file is read, the filter answers
    for every path, inside the root or not, with the negation of what the
    engine says about the path relative to the root, and throws where the
    engine throws.  Nothing exempts a path outside the root. *)
Theorem buildIgnoreFilter_matches_relative (h : Host) (root : string)
    (buffer : list byte) (content : string) :
  readFile h (join h root ".gitignore") = Some buffer ->
  toString h buffer = Some content ->
  forall p : string,
    buildIgnoreFilter h root p
    = option_map negb (ignores h content (relative h root p)).
Proof.
  intros Hread Hdecode p.
  unfold buildIgnoreFilter. rewrite Hread, Hdecode. reflexivity.
Qed.

Lemma buildIgnoreFilter_matches_relative_witness :
  buildIgnoreFilter sampleHost "/w" "/w/sub/b.bin"
  = option_map negb (ignores sampleHost "b.bin" "sub/b.bin").
Proof.
  apply (buildIgnoreFilter_matches_relative sampleHost "/w"
           (list_byte_of_string "b.bin") "b.bin");
    reflexivity.
Defined.

(** [/o/b.bin] lies outside the root [/w], whose ignore file names [b.bin].
    The engine of version 5 rejects the relative path [../o/b.bin], so the
    filter throws; an engine without that check matches the name and the
    path is ignored.  Either way the filter does not answer [true], and the
    folder [/o] contributes nothing to the selection. *)
Lemma outside_root_not_allowed :
  relative sampleHost "/w" "/o/b.bin" = "../o/b.bin"
  /\ buildIgnoreFilter sampleHost "/w" "/o/b.bin" = None
  /\ buildIgnoreFilter uncheckedHost "/w" "/o/b.bin" = Some false
  /\ selectedFiles sampleHost ["/o"] = []
  /\ selectedFiles uncheckedHost ["/o"] = [].
Proof. repeat split. Qed.

(** ** Path expansion *)

Lemma fold_push_app (A : Type) (mk : A -> FileEntry) (all : list A)
    (files : list FileEntry) :
  fold_left (fun fs u => push fs (mk u)) all files = files ++ map mk all.
Proof.
  revert files. induction all as [|u all IH]; intro files; simpl.
  - now rewrite app_nil_r.
  - rewrite IH. unfold push. now rewrite <- app_assoc.
Qed.

Lemma expandStep_app (h : Host) (root : string) (allow : Filter)
    (files : list FileEntry) (p : string) :
  expandStep h root allow files p = files ++ entriesOf h root allow p.
Proof.
  unfold entriesOf, expandStep.
  destruct (stat h p) as [st|]; [|now rewrite app_nil_r].
  destruct (isDirectory st).
  - destruct (findFiles h p) as [rawFiles|]; [|now rewrite app_nil_r].
    destruct (filterAllowed allow rawFiles) as [all|];
      [|now rewrite app_nil_r].
    now rewrite !fold_push_app.
  - reflexivity.
Qed.

Lemma expandPaths_from (h : Host) (root : string) (allow : Filter)
    (fsPaths : list string) (files : list FileEntry) :
  fold_left (expandStep h root allow) fsPaths files
  = files ++ flat_map (entriesOf h root allow) fsPaths.
Proof.
  revert files. induction fsPaths as [|p fsPaths IH]; intro files; simpl.
  - now rewrite app_nil_r.
  - rewrite IH, expandStep_app. now rewrite <- app_assoc.
Qed.

Lemma expandPaths_flat_map (h : Host) (root : string) (allow : Filter)
    (fsPaths : list string) :
  expandPaths h root allow fsPaths = flat_map (entriesOf h root allow) fsPaths.
Proof. unfold expandPaths. now rewrite expandPaths_from. Qed.

Lemma entriesOf_file (h : Host) (root : string) (allow : Filter)
    (p : string) (st : Stats) :
  stat h p = Some st -> isDirectory st = false ->
  entriesOf h root allow p = [ {| abs := p; rel := relative h root p |} ].
Proof.
  intros Hstat Hfile. unfold entriesOf, expandStep.
  now rewrite Hstat, Hfile.
Qed.

(** C1: an input path that stats as something other than a directory is
    pushed as it is, whatever the filter would say about it (the filter is
    not consulted: any two filters give the same step), so its entry is in
    the selection of the run. *)
Theorem explicit_file_bypasses_filter (h : Host) (fsPaths : list string)
    (p : string) (st : Stats) :
  In p fsPaths ->
  stat h p = Some st ->
  isDirectory st = false ->
  (forall (root : string) (allow allow' : Filter) (files : list FileEntry),
      expandStep h root allow files p
      = push files {| abs := p; rel := relative h root p |}
      /\ expandStep h root allow files p = expandStep h root allow' files p)
  /\ (forall (root : string) (allow : Filter),
         In {| abs := p; rel := relative h root p |}
            (expandPaths h root allow fsPaths))
  /\ In {| abs := p; rel := relative h (workspaceRoot h) p |}
        (selectedFiles h fsPaths).
Proof.
  intros Hin Hstat Hfile.
  assert (forall root allow,
             In {| abs := p; rel := relative h root p |}
                (expandPaths h root allow fsPaths)) as Hmem.
  { intros root allow. rewrite expandPaths_flat_map.
    apply in_flat_map. exists p. split; [exact Hin|].
    rewrite (entriesOf_file h root allow p st Hstat Hfile). now left. }
  split; [|split].
  - intros root allow allow' files.
    rewrite !expandStep_app.
    rewrite (entriesOf_file h root allow p st Hstat Hfile).
    rewrite (entriesOf_file h root allow' p st Hstat Hfile).
    split; reflexivity.
  - exact Hmem.
  - apply Hmem.
Qed.

(** [/w/b.bin] is ignored when the folder [/w] is expanded and selected when
    it is named itself. *)
Lemma explicit_file_bypasses_filter_witness :
  filterFor sampleHost "/w" "/w/b.bin" = Some false
  /\ ~ In {| abs := "/w/b.bin"; rel := "b.bin" |} (selectedFiles sampleHost ["/w"])
  /\ In {| abs := "/w/b.bin"; rel := "b.bin" |}
        (selectedFiles sampleHost ["/w/a.txt"; "/w/b.bin"]).
Proof.
  split; [reflexivity|]. split.
  - simpl. intros [E|[E|[]]]; discriminate E.
  - apply (explicit_file_bypasses_filter sampleHost ["/w/a.txt"; "/w/b.bin"]
             "/w/b.bin" {| isDirectory := false; size := 3 |}).
    + simpl. right. left. reflexivity.
    + reflexivity.
    + reflexivity.
Defined.

(** ** Relative paths *)

Lemma entriesOf_rel (h : Host) (root : string) (allow : Filter)
    (p : string) (e : FileEntry) :
  In e (entriesOf h root allow p) -> rel e = relative h root (abs e).
Proof.
  unfold entriesOf, expandStep.
  destruct (stat h p) as [st|]; [|intros []].
  destruct (isDirectory st).
  - destruct (findFiles h p) as [rawFiles|]; [|intros []].
    destruct (filterAllowed allow rawFiles) as [all|]; [|intros []].
    rewrite fold_push_app. simpl. rewrite in_map_iff.
    intros (u & <- & _). reflexivity.
  - unfold push. simpl. intros [<-|[]]. reflexivity.
Qed.

Lemma expandPaths_rel (h : Host) (root : string) (allow : Filter)
    (fsPaths : list string) (e : FileEntry) :
  In e (expandPaths h root allow fsPaths) -> rel e = relative h root (abs e).
Proof.
  rewrite expandPaths_flat_map, in_flat_map.
  intros (p & _ & He). now apply entriesOf_rel with (allow := allow) (p := p).
Qed.

Module PosixFacts.

Import Posix.

Lemma normalize_snoc (segs : list string) (seg : string) :
  normalize (segs ++ [seg]) = normalizeStep (normalize segs) seg.
Proof. unfold normalize. now rewrite fold_left_app. Qed.

Lemma stripCommon_same (l : list string) : stripCommon l l = ([], []).
Proof.
  induction l as [|s l IH]; simpl; [reflexivity|].
  now rewrite String.eqb_refl.
Qed.

Lemma resolve_empty (cwd : string) :
  resolve cwd "" = normalize (split cwd).
Proof. unfold resolve. simpl. now rewrite normalize_snoc. Qed.

Lemma resolve_absolute (cwd p : string) :
  isAbsolute p = true -> resolve cwd p = normalize (split p).
Proof. intro H. unfold resolve. now rewrite H. Qed.

(** [path.relative("", to)] is [path.relative(process.cwd(), to)]. *)
Lemma relative_from_empty (cwd to : string) :
  isAbsolute cwd = true ->
  relative cwd "" to = relative cwd cwd to.
Proof.
  intro Habs. unfold relative.
  rewrite resolve_empty, (resolve_absolute cwd cwd Habs).
  destruct (String.eqb_spec "" to) as [<-|Hne].
  - destruct (String.eqb_spec cwd "") as [E|_].
    + rewrite E in Habs. discriminate Habs.
    + rewrite resolve_empty, stripCommon_same. reflexivity.
  - destruct (String.eqb_spec cwd to) as [<-|_]; [|reflexivity].
    rewrite (resolve_absolute cwd cwd Habs), stripCommon_same. reflexivity.
Qed.

Lemma split_not_absolute (s : string) :
  Forall (fun seg => isAbsolute seg = false) (split s).
Proof.
  induction s as [|c s IH]; simpl.
  - constructor; [reflexivity|constructor].
  - destruct (Ascii.eqb c "/") eqn:E.
    + constructor; [reflexivity|exact IH].
    + destruct (split s) as [|seg rest].
      * constructor; [exact E|constructor].
      * inversion IH; subst. constructor; [exact E|assumption].
Qed.

Lemma Forall_removelast (A : Type) (P : A -> Prop) (l : list A) :
  Forall P l -> Forall P (removelast l).
Proof.
  induction 1 as [|x l Hx Hl IH]; simpl; [constructor|].
  destruct l; [constructor|]. constructor; assumption.
Qed.

Lemma normalizeStep_opens (acc : list string) (seg : string) :
  Forall opens acc -> isAbsolute seg = false ->
  Forall opens (normalizeStep acc seg).
Proof.
  intros Hacc Hseg. unfold normalizeStep.
  destruct (String.eqb_spec seg ""); [exact Hacc|].
  destruct (String.eqb seg "."); [exact Hacc|].
  destruct (String.eqb seg "..").
  - now apply Forall_removelast.
  - apply Forall_app. split; [exact Hacc|].
    constructor; [split; assumption|constructor].
Qed.

Lemma normalize_opens (segs : list string) :
  Forall (fun seg => isAbsolute seg = false) segs ->
  Forall opens (normalize segs).
Proof.
  unfold normalize.
  assert (forall acc, Forall opens acc ->
            Forall (fun seg => isAbsolute seg = false) segs ->
            Forall opens (fold_left normalizeStep segs acc)) as H.
  { induction segs as [|seg segs IH]; intros acc Hacc Hsegs; simpl.
    - exact Hacc.
    - inversion Hsegs; subst. apply IH; [|assumption].
      now apply normalizeStep_opens. }
  apply H. constructor.
Qed.

Lemma resolve_opens (cwd p : string) : Forall opens (resolve cwd p).
Proof.
  unfold resolve. destruct (isAbsolute p); apply normalize_opens.
  - apply split_not_absolute.
  - apply Forall_app. split; apply split_not_absolute.
Qed.

Lemma stripCommon_opens (from to : list string) :
  Forall opens to -> Forall opens (snd (stripCommon from to)).
Proof.
  revert to. induction from as [|f from IH]; intros to Hto; simpl.
  - exact Hto.
  - destruct to as [|t to]; [exact Hto|].
    destruct (String.eqb f t); [|exact Hto].
    apply IH. now inversion Hto.
Qed.

Lemma concat_opens (segs : list string) :
  Forall opens segs -> isAbsolute (String.concat "/" segs) = false.
Proof.
  destruct segs as [|seg rest]; [reflexivity|].
  intro H. inversion H as [|? ? [Hne Hrel] _]; subst.
  destruct seg as [|c seg]; [congruence|].
  simpl in *. destruct rest; exact Hrel.
Qed.

(** [path.relative] never returns an absolute path. *)
Lemma relative_not_absolute (cwd from to : string) :
  isAbsolute (relative cwd from to) = false.
Proof.
  unfold relative. destruct (String.eqb from to); [reflexivity|].
  pose proof (stripCommon_opens (resolve cwd from) (resolve cwd to)
                (resolve_opens cwd to)) as Hdown.
  destruct (stripCommon (resolve cwd from) (resolve cwd to)) as [up down].
  simpl in Hdown. apply concat_opens.
  apply Forall_app. split; [|exact Hdown].
  apply Forall_forall. intros seg Hin. apply in_map_iff in Hin.
  destruct Hin as (_ & <- & _). split; [discriminate|reflexivity].
Qed.

End PosixFacts.

(** C8, as the code has it: the relative path of every entry is
    [path.relative(root, abs)] for the one root of the run.  With an empty
    root Node's [path.relative] takes the working directory of the process
    in its place: the entry gets its path relative to that directory, which
    is never an absolute path, and no error arises. *)
Theorem entry_relative_to_root (h : Host) (fsPaths : list string)
    (e : FileEntry) :
  In e (selectedFiles h fsPaths) ->
  rel e = relative h (workspaceRoot h) (abs e)
  /\ (forall cwd : string,
         workspaceRoot h = "" ->
         relative h = Posix.relative cwd ->
         Posix.isAbsolute cwd = true ->
         rel e = Posix.relative cwd cwd (abs e)
         /\ Posix.isAbsolute (rel e) = false).
Proof.
  intro Hin. apply expandPaths_rel in Hin. split; [exact Hin|].
  intros cwd Hroot Hrel Hcwd.
  rewrite Hin, Hroot, Hrel.
  split.
  - now apply PosixFacts.relative_from_empty.
  - apply PosixFacts.relative_not_absolute.
Qed.

Lemma entry_relative_to_root_witness :
  rel {| abs := "/home/u/a.txt"; rel := "a.txt" |}
  = Posix.relative "/home/u" "/home/u" "/home/u/a.txt".
Proof.
  refine (proj1 (proj2 (entry_relative_to_root rootlessHost ["/home/u/a.txt"]
                          {| abs := "/home/u/a.txt"; rel := "a.txt" |} _)
                   "/home/u" _ _ _)).
  - simpl. left. reflexivity.
  - reflexivity.
  - reflexivity.
  - reflexivity.
Defined.

(** No workspace folder is open, so the root is empty; the selected file
    [/home/u/a.txt] is listed as [a.txt], not under the path as given. *)
Lemma empty_root_not_path_as_given :
  workspaceRoot rootlessHost = ""
  /\ selectedFiles rootlessHost ["/home/u/a.txt"]
     = [ {| abs := "/home/u/a.txt"; rel := "a.txt" |} ]
  /\ "a.txt" <> "/home/u/a.txt".
Proof.
  split; [reflexivity|]. split; [reflexivity|]. discriminate.
Qed.

(** ** The pre-flight gate *)

Lemma estimatedBytes_from (h : Host) (files : list FileEntry) (acc : Z) :
  fold_left
    (fun acc f =>
       match stat h (abs f) with
       | Some st => acc + size st
       | None => acc
       end)
    files acc
  = acc + fold_right Z.add 0 (map (sizeOrZero h) files).
Proof.
  revert acc. induction files as [|f files IH]; intro acc; simpl.
  - lia.
  - rewrite IH. unfold sizeOrZero. destruct (stat h (abs f)); lia.
Qed.

Lemma estimatedBytes_sum (h : Host) (files : list FileEntry) :
  estimatedBytes h files = fold_right Z.add 0 (map (sizeOrZero h) files).
Proof. unfold estimatedBytes. now rewrite estimatedBytes_from. Qed.

(** [bytes / 1024 / 1024 <= 10] on the numbers is [bytes <= 10 * 2^20] on
    the integers. *)
Lemma megabytes_le_10 (bytes : Z) :
  Qle_bool (inject_Z bytes / inject_Z 1024 / inject_Z 1024) (inject_Z 10) = true
  <-> bytes <= 10 * 2 ^ 20.
Proof.
  rewrite Qle_bool_iff. unfold Qle, Qdiv, Qmult, Qinv, inject_Z. simpl. lia.
Qed.

Lemma requiresConfirmation_iff (h : Host) (files : list FileEntry) :
  requiresConfirmation h files = true <->
  totalFiles files > 1000 \/ estimatedBytes h files > 10 * 2 ^ 20.
Proof.
  unfold requiresConfirmation, estimatedMB.
  rewrite orb_true_iff, negb_true_iff, <- not_true_iff_false, megabytes_le_10.
  rewrite Z.gtb_gt. lia.
Qed.

(** C4: the gate counts the entries, sums the sizes [stat] reports (nothing
    for an entry whose [stat] fails), and asks for confirmation exactly when
    there are more than 1000 entries or more than 10 * 2^20 bytes; so it
    does for 1001 entries and does not for 5 entries of 1 KB in all. *)
Theorem preflight_decision (h : Host) (files : list FileEntry) :
  totalFiles files = Z.of_nat (length files)
  /\ estimatedBytes h files = fold_right Z.add 0 (map (sizeOrZero h) files)
  /\ (forall f : FileEntry, stat h (abs f) = None -> sizeOrZero h f = 0)
  /\ (requiresConfirmation h files = true <->
      totalFiles files > 1000 \/ estimatedBytes h files > 10 * 2 ^ 20)
  /\ (length files = 1001%nat -> requiresConfirmation h files = true)
  /\ (length files = 5%nat -> estimatedBytes h files = 1024 ->
      requiresConfirmation h files = false).
Proof.
  split; [reflexivity|].
  split; [apply estimatedBytes_sum|].
  split; [intros f Hf; unfold sizeOrZero; now rewrite Hf|].
  split; [apply requiresConfirmation_iff|].
  split.
  - intro Hlen. apply requiresConfirmation_iff. left.
    unfold totalFiles. rewrite Hlen. reflexivity.
  - intros Hlen Hbytes. apply not_true_iff_false.
    rewrite requiresConfirmation_iff. unfold totalFiles.
    rewrite Hlen, Hbytes. intros [H|H]; discriminate H.
Qed.

Lemma preflight_decision_witness :
  requiresConfirmation manyHost (selectedFiles manyHost manyPaths) = true
  /\ requiresConfirmation fiveHost (selectedFiles fiveHost fivePaths) = false.
Proof.
  split.
  - apply (proj1 (proj2 (proj2 (proj2 (proj2
             (preflight_decision manyHost (selectedFiles manyHost manyPaths))))))).
    vm_compute. reflexivity.
  - apply (proj2 (proj2 (proj2 (proj2 (proj2
             (preflight_decision fiveHost (selectedFiles fiveHost fivePaths))))))).
    + vm_compute. reflexivity.
    + vm_compute. reflexivity.
Defined.

Example preflight_at_the_limits :
  requiresConfirmation sampleHost (selectedFiles sampleHost ["/w"]) = false
  /\ estimatedBytes fiveHost (selectedFiles fiveHost fivePaths) = 1024
  /\ totalFiles (selectedFiles manyHost manyPaths) = 1001
  /\ estimatedBytes manyHost (selectedFiles manyHost manyPaths) = 1001.
Proof. vm_compute. repeat split. Qed.

(** ** Serialisation *)

Local Open Scope string_scope.

Lemma append_nil_r (s : string) : s ++ "" = s.
Proof. induction s as [|c s IH]; simpl; [reflexivity|now rewrite IH]. Qed.

Lemma append_assoc (s1 s2 s3 : string) : (s1 ++ s2) ++ s3 = s1 ++ s2 ++ s3.
Proof. induction s1 as [|c s1 IH]; simpl; [reflexivity|now rewrite IH]. Qed.

(** Brings both sides of an equation between texts to right-nested form. *)
Ltac flatten_append :=
  repeat (first [rewrite !append_assoc | progress simpl]).

(** A turn of the streaming loop only appends to the stream. *)
Lemma streamFile_appends (h : Host) (out : string) (f : FileEntry) :
  streamFile h out f = out ++ sectionOf h f.
Proof.
  unfold sectionOf, streamFile, write.
  destruct (readFile h (abs f)) as [buffer|]; [|reflexivity].
  destruct (looksBinary buffer); [now rewrite append_nil_r|].
  destruct (toString h buffer) as [content|]; now flatten_append.
Qed.

Lemma streamFiles_from (h : Host) (files : list FileEntry) (out : string) :
  fold_left (streamFile h) files out = out ++ sectionsOf h files.
Proof.
  revert out. induction files as [|f files IH]; intro out; simpl.
  - now rewrite append_nil_r.
  - rewrite IH, streamFile_appends. now rewrite append_assoc.
Qed.

Lemma streamDocument_layout (h : Host) (files : list FileEntry) :
  streamDocument h files = documentHeader files ++ sectionsOf h files.
Proof. unfold streamDocument, write. simpl. apply streamFiles_from. Qed.

Lemma sectionsOf_app (h : Host) (l1 l2 : list FileEntry) :
  sectionsOf h (l1 ++ l2) = sectionsOf h l1 ++ sectionsOf h l2.
Proof.
  induction l1 as [|f l1 IH]; simpl; [reflexivity|].
  fold (sectionsOf h (l1 ++ l2)). fold (sectionsOf h l1).
  now rewrite IH, append_assoc.
Qed.

Lemma sectionsOf_cons (h : Host) (f : FileEntry) (l : list FileEntry) :
  sectionsOf h (f :: l) = sectionOf h f ++ sectionsOf h l.
Proof. reflexivity. Qed.

(** C3: the document starts with the structure section, a fenced block of
    the relative paths of all entries, one per line and in the order of the
    list; it is a function of the entries alone, not of what reading them
    gives.  A file found binary adds nothing to the content sections, and
    its path is in the listing all the same. *)
Theorem structure_listing_first (h : Host) (files : list FileEntry) :
  streamDocument h files = documentHeader files ++ sectionsOf h files
  /\ documentHeader files
     = "# Context Generation Request" ++ LF ++ LF
       ++ "## Project Structure:" ++ LF
       ++ fence ++ LF
       ++ String.concat LF (map rel files) ++ LF
       ++ fence ++ LF ++ LF
       ++ "## File Contents:" ++ LF ++ LF
  /\ (forall (l1 l2 : list FileEntry) (f : FileEntry) (buffer : list byte),
         files = (l1 ++ f :: l2)%list ->
         readFile h (abs f) = Some buffer ->
         looksBinary buffer = true ->
         sectionOf h f = ""
         /\ sectionsOf h files = sectionsOf h l1 ++ sectionsOf h l2
         /\ In (rel f) (map rel files)).
Proof.
  split; [apply streamDocument_layout|]. split; [reflexivity|].
  intros l1 l2 f buffer -> Hread Hbin.
  assert (sectionOf h f = "") as Hsec.
  { unfold sectionOf, streamFile. now rewrite Hread, Hbin. }
  split; [exact Hsec|]. split.
  - now rewrite sectionsOf_app, sectionsOf_cons, Hsec.
  - apply in_map, in_elt.
Qed.

(** The explicitly selected [b.bin] is listed and not rendered. *)
Lemma structure_listing_first_witness :
  sectionOf sampleHost {| abs := "/w/b.bin"; rel := "b.bin" |} = ""
  /\ In "b.bin" (map rel (selectedFiles sampleHost ["/w/a.txt"; "/w/b.bin"])).
Proof.
  pose proof (proj2 (proj2 (structure_listing_first sampleHost
                (selectedFiles sampleHost ["/w/a.txt"; "/w/b.bin"])))
                [ {| abs := "/w/a.txt"; rel := "a.txt" |} ] []
                {| abs := "/w/b.bin"; rel := "b.bin" |}
                [x00; x01; x02]) as H.
  destruct H as (Hsec & _ & Hin); try reflexivity.
  split; [exact Hsec|exact Hin].
Defined.

Example document_of_sample_folder :
  buildPromptToFile sampleHost ["/w/a.txt"; "/w/b.bin"] None
  = Some ("# Context Generation Request" ++ LF ++ LF
          ++ "## Project Structure:" ++ LF
          ++ "```" ++ LF
          ++ "a.txt" ++ LF
          ++ "b.bin" ++ LF
          ++ "```" ++ LF ++ LF
          ++ "## File Contents:" ++ LF ++ LF
          ++ "### a.txt" ++ LF
          ++ "```" ++ LF
          ++ "hello" ++ LF
          ++ "```" ++ LF ++ LF).
Proof. reflexivity. Qed.

(** C5: an entry whose read fails gets its header and the marker
    [[unreadable]] in a fenced block where its content would be; the
    sections of the entries before and after it are written as ever, and the
    run ends with the document on the stream. *)
Theorem unreadable_file_is_marked (h : Host) (l1 l2 : list FileEntry)
    (f : FileEntry) :
  readFile h (abs f) = None ->
  sectionOf h f
  = "### " ++ rel f ++ LF ++ fence ++ LF
    ++ "[unreadable]" ++ LF ++ fence ++ LF ++ LF
  /\ streamDocument h (l1 ++ f :: l2)
     = documentHeader (l1 ++ f :: l2)
       ++ sectionsOf h l1 ++ sectionOf h f ++ sectionsOf h l2
  /\ (forall (fsPaths : list string) (choice : option string),
         selectedFiles h fsPaths = (l1 ++ f :: l2)%list ->
         requiresConfirmation h (l1 ++ f :: l2) = false
         \/ choice = Some "Yes" ->
         buildPromptToFile h fsPaths choice
         = Some (streamDocument h (l1 ++ f :: l2))).
Proof.
  intro Hread. split; [|split].
  - unfold sectionOf, streamFile. rewrite Hread. reflexivity.
  - now rewrite streamDocument_layout, sectionsOf_app, sectionsOf_cons.
  - intros fsPaths choice Hsel Hgo. unfold buildPromptToFile.
    rewrite Hsel.
    destruct (requiresConfirmation h (l1 ++ f :: l2)); [|reflexivity].
    destruct Hgo as [Hgo| ->]; [discriminate Hgo|reflexivity].
Qed.

(** [/w/gone.txt] can be listed but not read; the file after it is rendered
    as usual. *)
Lemma unreadable_file_is_marked_witness :
  buildPromptToFile sampleHost ["/w/gone.txt"; "/w/a.txt"] None
  = Some ("# Context Generation Request" ++ LF ++ LF
          ++ "## Project Structure:" ++ LF
          ++ "```" ++ LF
          ++ "gone.txt" ++ LF
          ++ "a.txt" ++ LF
          ++ "```" ++ LF ++ LF
          ++ "## File Contents:" ++ LF ++ LF
          ++ "### gone.txt" ++ LF
          ++ "```" ++ LF
          ++ "[unreadable]" ++ LF
          ++ "```" ++ LF ++ LF
          ++ "### a.txt" ++ LF
          ++ "```" ++ LF
          ++ "hello" ++ LF
          ++ "```" ++ LF ++ LF).
Proof.
  refine (eq_trans
            (proj2 (proj2 (unreadable_file_is_marked sampleHost []
                             [ {| abs := "/w/a.txt"; rel := "a.txt" |} ]
                             {| abs := "/w/gone.txt"; rel := "gone.txt" |} _))
               ["/w/gone.txt"; "/w/a.txt"] None _ _) _).
  - reflexivity.
  - reflexivity.
  - left. reflexivity.
  - reflexivity.
Defined.

(** ** Declining the confirmation *)

Lemma isYes_false (choice : option string) :
  choice <> Some "Yes" -> isYes choice = false.
Proof.
  destruct choice as [answer|]; simpl; [|reflexivity].
  intro Hne. destruct (String.eqb_spec answer "Yes") as [->|_];
    [congruence|reflexivity].
Qed.

(** C7: when the gate asks for confirmation and the answer is not "Yes",
    [buildPromptToFile] returns before the write stream is created: the run
    ends normally and leaves no output file, empty or partial. *)
Theorem declined_creates_no_output (h : Host) (fsPaths : list string)
    (choice : option string) :
  requiresConfirmation h (selectedFiles h fsPaths) = true ->
  choice <> Some "Yes" ->
  buildPromptToFile h fsPaths choice = None.
Proof.
  intros Hgate Hno. unfold buildPromptToFile.
  now rewrite Hgate, (isYes_false choice Hno).
Qed.

(** 1001 files selected, the dialog dismissed. *)
Lemma declined_creates_no_output_witness :
  buildPromptToFile manyHost manyPaths None = None.
Proof.
  apply (declined_creates_no_output manyHost manyPaths None).
  - vm_compute. reflexivity.
  - discriminate.
Defined.

(** ** The two entry points *)

Lemma fold_left_agree (A B : Type) (F G : A -> B -> A) (l : list B) (a : A) :
  (forall x b, In b l -> F x b = G x b) ->
  fold_left F l a = fold_left G l a.
Proof.
  revert a. induction l as [|b l IH]; intros a H; simpl; [reflexivity|].
  rewrite (H a b) by now left.
  apply IH. intros x b' Hb'. apply H. now right.
Qed.

(** The two loops add the same text for an entry whose buffer decodes. *)
Lemma streamFile_appendFile (h : Host) (out : string) (f : FileEntry) :
  (forall buffer, readFile h (abs f) = Some buffer ->
                  toString h buffer <> None) ->
  streamFile h out f = appendFile h out f.
Proof.
  intro Hdecodes. unfold streamFile, appendFile, write.
  destruct (readFile h (abs f)) as [buffer|]; [|reflexivity].
  destruct (looksBinary buffer); [reflexivity|].
  specialize (Hdecodes buffer eq_refl).
  destruct (toString h buffer) as [content|]; [|congruence].
  now flatten_append.
Qed.

(** Where a buffer does not decode, the streaming loop has the section
    header on the stream already when the marker section follows; the
    in-memory loop appends the marker section alone. *)
Remark decoding_failure_sections (h : Host) (out : string) (f : FileEntry)
    (buffer : list byte) :
  readFile h (abs f) = Some buffer ->
  looksBinary buffer = false ->
  toString h buffer = None ->
  streamFile h out f
  = out ++ ("### " ++ rel f ++ LF ++ fence ++ LF) ++ unreadableSection (rel f)
  /\ appendFile h out f = out ++ unreadableSection (rel f).
Proof.
  intros Hread Htext Hfail. unfold streamFile, appendFile, write.
  rewrite Hread, Htext, Hfail. split; [now flatten_append|reflexivity].
Qed.

Lemma sum_bounds_member (g : FileEntry -> Z) (files : list FileEntry)
    (f : FileEntry) :
  (forall x, 0 <= g x) -> In f files ->
  g f <= fold_right Z.add 0 (map g files).
Proof.
  intros Hpos. induction files as [|x files IH]; simpl; [intros []|].
  intros [->|Hin].
  - assert (0 <= fold_right Z.add 0 (map g files)) as H0.
    { clear IH. induction files as [|y files IH]; simpl; [lia|].
      specialize (Hpos y). lia. }
    lia.
  - specialize (IH Hin). specialize (Hpos x). lia.
Qed.

Lemma sizeOrZero_nonneg (h : Host) (f : FileEntry) :
  Coherent h -> 0 <= sizeOrZero h f.
Proof.
  intro Hco. unfold sizeOrZero.
  destruct (stat h (abs f)) as [st|] eqn:E; [|lia].
  exact (size_nonneg h Hco _ _ E).
Qed.

(** Below the limit of the gate every buffer that is read decodes. *)
Lemma small_selection_decodes (h : Host) (files : list FileEntry) :
  Coherent h ->
  requiresConfirmation h files = false ->
  forall (f : FileEntry) (buffer : list byte),
    In f files -> readFile h (abs f) = Some buffer ->
    toString h buffer <> None.
Proof.
  intros Hco Hgate f buffer Hin Hread.
  apply (decodes_small h Hco).
  destruct (read_within_size h Hco _ _ Hread) as (st & Hstat & Hlen).
  assert (sizeOrZero h f = size st) as Hsz
    by (unfold sizeOrZero; now rewrite Hstat).
  pose proof (sum_bounds_member (sizeOrZero h) files f
                (fun x => sizeOrZero_nonneg h x Hco) Hin) as Hsum.
  rewrite <- estimatedBytes_sum in Hsum.
  apply not_true_iff_false in Hgate.
  rewrite requiresConfirmation_iff in Hgate.
  lia.
Qed.

(** C10: when the gate asks for no confirmation, the text
    [buildPromptToFile] streams to its output file is the string
    [buildPrompt] returns for the same selection on the same host. *)
Theorem streaming_equals_in_memory (h : Host) (fsPaths : list string)
    (choice : option string) :
  Coherent h ->
  requiresConfirmation h (selectedFiles h fsPaths) = false ->
  buildPromptToFile h fsPaths choice = Some (buildPrompt h fsPaths).
Proof.
  intros Hco Hgate. unfold buildPromptToFile, buildPrompt.
  rewrite Hgate. f_equal. unfold streamDocument, write. simpl.
  apply fold_left_agree. intros out f Hin.
  apply streamFile_appendFile. intros buffer Hread.
  exact (small_selection_decodes h _ Hco Hgate f buffer Hin Hread).
Qed.

Lemma lookup_coherent (d : Disk) (p : string) (n : Node) :
  diskCoherent d = true -> lookup d p = Some n -> nodeCoherent n = true.
Proof.
  induction d as [|[q m] d IH]; simpl; [discriminate|].
  rewrite andb_true_iff. intros [Hm Hd].
  destruct (String.eqb q p); [|now apply IH].
  intro E. inversion E; subst. exact Hm.
Qed.

(** A host over a disk whose sizes fit its data is coherent. *)
Lemma nodeHost_coherent (engine : string -> string -> option bool)
    (cwd : string) (folder : option string) (d : Disk) :
  diskCoherent d = true -> Coherent (nodeHost engine cwd folder d).
Proof.
  intro Hd. constructor; simpl.
  - intros p st. unfold diskStat.
    destruct (lookup d p) as [[found|bytes data]|] eqn:E;
      intro Hst; inversion Hst; subst; simpl; [lia|].
    apply (lookup_coherent d p _ Hd) in E. simpl in E.
    apply andb_true_iff in E. lia.
  - intros p buffer. unfold diskRead, diskStat.
    destruct (lookup d p) as [[found|bytes data]|] eqn:E; try discriminate.
    intros ->. eexists. split; [reflexivity|]. simpl.
    apply (lookup_coherent d p _ Hd) in E. simpl in E.
    apply andb_true_iff in E. lia.
  - intros buffer _. discriminate.
Qed.

Lemma streaming_equals_in_memory_witness :
  buildPromptToFile sampleHost ["/w"; "/w/b.bin"; "/w/gone.txt"; "/o"] None
  = Some (buildPrompt sampleHost ["/w"; "/w/b.bin"; "/w/gone.txt"; "/o"]).
Proof.
  apply (streaming_equals_in_memory sampleHost
           ["/w"; "/w/b.bin"; "/w/gone.txt"; "/o"] None).
  - apply nodeHost_coherent. reflexivity.
  - vm_compute. reflexivity.
Defined.

(** * Further properties of the pipeline *)

(** ** Expansion of the selection *)

(** X1: the inputs are expanded one after the other and in their order: the
    files of a selection in two parts are the files of the first part
    followed by the files of the second. *)
Theorem expandPaths_app (h : Host) (root : string) (allow : Filter)
    (l1 l2 : list string) :
  expandPaths h root allow (l1 ++ l2)
  = (expandPaths h root allow l1 ++ expandPaths h root allow l2)%list
  /\ selectedFiles h (l1 ++ l2)
     = (selectedFiles h l1 ++ selectedFiles h l2)%list.
Proof.
  assert (forall a, expandPaths h root a (l1 ++ l2)
                    = (expandPaths h root a l1 ++ expandPaths h root a l2)%list)
    as H by (intro a; now rewrite !expandPaths_flat_map, flat_map_app).
  split; [apply H|].
  unfold selectedFiles. now rewrite !expandPaths_flat_map, flat_map_app.
Qed.

Lemma entriesOf_unstatable (h : Host) (root : string) (allow : Filter)
    (p : string) :
  stat h p = None -> entriesOf h root allow p = [].
Proof. intro H. unfold entriesOf, expandStep. now rewrite H. Qed.

(** X2: an input path whose [stat] fails is skipped and the other inputs are
    expanded as if it had not been selected. *)
Theorem unstatable_input_skipped (h : Host) (root : string) (allow : Filter)
    (l1 l2 : list string) (p : string) (files : list FileEntry) :
  stat h p = None ->
  expandStep h root allow files p = files
  /\ expandPaths h root allow (l1 ++ p :: l2)
     = expandPaths h root allow (l1 ++ l2)
  /\ selectedFiles h (l1 ++ p :: l2) = selectedFiles h (l1 ++ l2).
Proof.
  intro Hstat.
  assert (forall a, expandPaths h root a (l1 ++ p :: l2)
                    = expandPaths h root a (l1 ++ l2)) as H.
  { intro a. rewrite !expandPaths_flat_map, !flat_map_app. simpl.
    now rewrite (entriesOf_unstatable h root a p Hstat). }
  split; [|split].
  - rewrite expandStep_app, (entriesOf_unstatable h root allow p Hstat).
    apply app_nil_r.
  - apply H.
  - unfold selectedFiles. rewrite !expandPaths_flat_map, !flat_map_app. simpl.
    now rewrite (entriesOf_unstatable h _ _ p Hstat).
Qed.

Lemma unstatable_input_skipped_witness :
  selectedFiles sampleHost (["/w/a.txt"] ++ "/nope" :: ["/w/b.bin"])
  = selectedFiles sampleHost (["/w/a.txt"] ++ ["/w/b.bin"]).
Proof.
  apply (proj2 (proj2 (unstatable_input_skipped sampleHost "/w" allowAll
                         ["/w/a.txt"] ["/w/b.bin"] "/nope" [] eq_refl))).
Defined.

Lemma filterAllowed_total (allow : Filter) (rawFiles : list string) :
  (forall u, In u rawFiles -> allow u <> None) ->
  filterAllowed allow rawFiles = Some (filter (allowed allow) rawFiles).
Proof.
  induction rawFiles as [|u rest IH]; intro Htotal; simpl; [reflexivity|].
  unfold allowed at 1.
  destruct (allow u) as [keep|] eqn:E.
  - rewrite IH by (intros v Hv; apply Htotal; now right).
    now destruct keep.
  - exfalso. apply (Htotal u); [now left|exact E].
Qed.

Lemma filterAllowed_throws (allow : Filter) (rawFiles : list string)
    (u : string) :
  In u rawFiles -> allow u = None -> filterAllowed allow rawFiles = None.
Proof.
  induction rawFiles as [|v rest IH]; simpl; [intros []|].
  intros [->|Hin] Hu.
  - now rewrite Hu.
  - destruct (allow v); [|reflexivity].
    now rewrite (IH Hin Hu).
Qed.

Lemma filterAllowed_In (allow : Filter) (rawFiles all : list string)
    (u : string) :
  filterAllowed allow rawFiles = Some all ->
  In u all <-> In u rawFiles /\ allow u = Some true.
Proof.
  revert all. induction rawFiles as [|v rest IH]; simpl; intros all H.
  - inversion H; subst. simpl. tauto.
  - destruct (allow v) as [keep|] eqn:Ev; [|discriminate].
    destruct (filterAllowed allow rest) as [all'|]; [|discriminate].
    specialize (IH all' eq_refl).
    inversion H; subst. destruct keep; simpl; rewrite ?IH.
    + split.
      * intros [->|[Hin Hu]]; [now split; [left|]|now split; [right|]].
      * intros [[->|Hin] Hu]; [now left|right; now split].
    + split.
      * intros [Hin Hu]. now split; [right|].
      * intros [[->|Hin] Hu]; [congruence|now split].
Qed.

Lemma expandStep_directory (h : Host) (root : string) (allow : Filter)
    (files : list FileEntry) (p : string) (st : Stats)
    (rawFiles : list string) :
  stat h p = Some st ->
  isDirectory st = true ->
  findFiles h p = Some rawFiles ->
  (forall u, In u rawFiles -> allow u <> None) ->
  expandStep h root allow files p
  = (files
     ++ map (fun u => {| abs := u; rel := relative h root u |})
            (filter (allowed allow) rawFiles))%list.
Proof.
  intros Hstat Hdir Hfind Htotal. unfold expandStep.
  rewrite Hstat, Hdir, Hfind, (filterAllowed_total allow rawFiles Htotal).
  apply fold_push_app.
Qed.

(** X3: for a directory whose enumeration the filter answers throughout, the
    entries pushed are the enumerated files the filter allows, in the order
    of the enumeration and with their paths relative to the root; a file the
    filter rejects is not among them. *)
Theorem directory_entries_filtered (h : Host) (root : string)
    (allow : Filter) (files : list FileEntry) (p : string) (st : Stats)
    (rawFiles : list string) :
  stat h p = Some st ->
  isDirectory st = true ->
  findFiles h p = Some rawFiles ->
  (forall u, In u rawFiles -> allow u <> None) ->
  expandStep h root allow files p
  = (files
     ++ map (fun u => {| abs := u; rel := relative h root u |})
            (filter (allowed allow) rawFiles))%list
  /\ (forall u, allow u = Some false ->
        ~ In u (map abs (entriesOf h root allow p))).
Proof.
  intros Hstat Hdir Hfind Htotal.
  pose proof (fun fs => expandStep_directory h root allow fs p st rawFiles
                          Hstat Hdir Hfind Htotal) as Hstep.
  split; [apply Hstep|].
  intros u Hu Hin. unfold entriesOf in Hin. rewrite Hstep in Hin.
  simpl in Hin. rewrite map_map in Hin. simpl in Hin.
  rewrite map_id in Hin. apply filter_In in Hin.
  destruct Hin as [_ Hal]. unfold allowed in Hal. now rewrite Hu in Hal.
Qed.

(** The folder [/w] without the ignored [b.bin]. *)
Lemma directory_entries_filtered_witness :
  expandStep sampleHost "/w" (filterFor sampleHost "/w") [] "/w"
  = [ {| abs := "/w/a.txt"; rel := "a.txt" |};
      {| abs := "/w/.gitignore"; rel := ".gitignore" |} ].
Proof.
  refine (eq_trans
            (proj1 (directory_entries_filtered sampleHost "/w"
                      (filterFor sampleHost "/w") [] "/w"
                      {| isDirectory := true; size := 4096 |}
                      ["/w/a.txt"; "/w/b.bin"; "/w/.gitignore"]
                      eq_refl eq_refl eq_refl _)) _).
  - intros u [<-|[<-|[<-|[]]]]; discriminate.
  - reflexivity.
Defined.

(** X4: when the filter throws on one file of a directory's enumeration, the
    exception ends the turn of the loop before anything is pushed: the
    directory adds no entry at all, not even the files the filter allows. *)
Theorem throwing_filter_drops_directory (h : Host) (root : string)
    (allow : Filter) (files : list FileEntry) (p : string) (st : Stats)
    (rawFiles : list string) (u : string) :
  stat h p = Some st ->
  isDirectory st = true ->
  findFiles h p = Some rawFiles ->
  In u rawFiles ->
  allow u = None ->
  expandStep h root allow files p = files.
Proof.
  intros Hstat Hdir Hfind Hin Hu. unfold expandStep.
  now rewrite Hstat, Hdir, Hfind, (filterAllowed_throws allow rawFiles u Hin Hu).
Qed.

(** The folder [/o] lies outside the root [/w]; the ignore engine throws on
    the path of its file. *)
Lemma throwing_filter_drops_directory_witness :
  expandStep sampleHost "/w" (filterFor sampleHost "/w")
    [ {| abs := "/w/a.txt"; rel := "a.txt" |} ] "/o"
  = [ {| abs := "/w/a.txt"; rel := "a.txt" |} ].
Proof.
  apply (throwing_filter_drops_directory sampleHost "/w"
           (filterFor sampleHost "/w") _ "/o"
           {| isDirectory := true; size := 4096 |} ["/o/b.bin"] "/o/b.bin").
  - reflexivity.
  - reflexivity.
  - reflexivity.
  - simpl. left. reflexivity.
  - reflexivity.
Defined.

(** X5: nothing merges overlapping inputs: a file selected together with a
    directory whose enumeration holds it, and which the filter allows, is
    entered twice, once for the directory and once for itself. *)
Theorem overlapping_inputs_listed_twice (h : Host) (root : string)
    (allow : Filter) (dir p : string) (sd sp : Stats)
    (rawFiles : list string) :
  stat h dir = Some sd -> isDirectory sd = true ->
  findFiles h dir = Some rawFiles ->
  (forall u, In u rawFiles -> allow u <> None) ->
  In p rawFiles -> allow p = Some true ->
  stat h p = Some sp -> isDirectory sp = false ->
  exists before between : list FileEntry,
    expandPaths h root allow [dir; p]
    = (before ++ {| abs := p; rel := relative h root p |}
              :: between ++ [ {| abs := p; rel := relative h root p |} ])%list.
Proof.
  intros Hsd Hdir Hfind Htotal Hin Hallow Hsp Hfile.
  set (e := {| abs := p; rel := relative h root p |}).
  assert (In e (entriesOf h root allow dir)) as He.
  { unfold entriesOf.
    rewrite (expandStep_directory h root allow [] dir sd rawFiles
               Hsd Hdir Hfind Htotal).
    simpl. apply in_map_iff. exists p. split; [reflexivity|].
    apply filter_In. split; [exact Hin|]. unfold allowed. now rewrite Hallow. }
  apply in_split in He. destruct He as (before & between & Hsplit).
  exists before, between.
  rewrite expandPaths_flat_map. simpl.
  rewrite Hsplit, (entriesOf_file h root allow p sp Hsp Hfile), app_nil_r.
  now rewrite <- app_assoc.
Qed.

Lemma overlapping_inputs_listed_twice_witness :
  exists before between : list FileEntry,
    expandPaths sampleHost "/w" (filterFor sampleHost "/w") ["/w"; "/w/a.txt"]
    = (before ++ {| abs := "/w/a.txt"; rel := "a.txt" |}
              :: between ++ [ {| abs := "/w/a.txt"; rel := "a.txt" |} ])%list.
Proof.
  refine (overlapping_inputs_listed_twice sampleHost "/w"
            (filterFor sampleHost "/w") "/w" "/w/a.txt"
            {| isDirectory := true; size := 4096 |}
            {| isDirectory := false; size := 5 |}
            ["/w/a.txt"; "/w/b.bin"; "/w/.gitignore"]
            eq_refl eq_refl eq_refl _ _ eq_refl eq_refl eq_refl).
  - intros u [<-|[<-|[<-|[]]]]; discriminate.
  - simpl. left. reflexivity.
Defined.

(** X6: the expansion invents nothing: every entry is an input path that
    stats as a non-directory, or a file that [findFiles] enumerated for an
    input directory and that the filter allowed. *)
Theorem entries_come_from_inputs (h : Host) (root : string) (allow : Filter)
    (fsPaths : list string) (e : FileEntry) :
  In e (expandPaths h root allow fsPaths) ->
  exists p : string,
    In p fsPaths
    /\ ((abs e = p
         /\ exists st, stat h p = Some st /\ isDirectory st = false)
        \/ (exists st rawFiles,
              stat h p = Some st /\ isDirectory st = true
              /\ findFiles h p = Some rawFiles
              /\ In (abs e) rawFiles /\ allow (abs e) = Some true)).
Proof.
  rewrite expandPaths_flat_map, in_flat_map.
  intros (p & Hp & He). exists p. split; [exact Hp|].
  unfold entriesOf, expandStep in He.
  destruct (stat h p) as [st|] eqn:Hstat; [|destruct He].
  destruct (isDirectory st) eqn:Hdir.
  - right.
    destruct (findFiles h p) as [rawFiles|] eqn:Hfind; [|destruct He].
    destruct (filterAllowed allow rawFiles) as [all|] eqn:Hfilter;
      [|destruct He].
    rewrite fold_push_app in He. simpl in He. apply in_map_iff in He.
    destruct He as (u & <- & Hu). simpl.
    apply (filterAllowed_In allow rawFiles all u Hfilter) in Hu.
    exists st, rawFiles. tauto.
  - left. unfold push in He. simpl in He. destruct He as [<-|[]].
    split; [reflexivity|]. now exists st.
Qed.

Lemma entries_come_from_inputs_witness :
  exists p : string,
    In p ["/w"; "/o"; "/w/gone.txt"]
    /\ (("/w/a.txt" = p
         /\ exists st, stat sampleHost p = Some st /\ isDirectory st = false)
        \/ (exists st rawFiles,
              stat sampleHost p = Some st /\ isDirectory st = true
              /\ findFiles sampleHost p = Some rawFiles
              /\ In "/w/a.txt" rawFiles
              /\ filterFor sampleHost "/w" "/w/a.txt" = Some true)).
Proof.
  apply (entries_come_from_inputs sampleHost "/w" (filterFor sampleHost "/w")
           ["/w"; "/o"; "/w/gone.txt"] {| abs := "/w/a.txt"; rel := "a.txt" |}).
  simpl. left. reflexivity.
Defined.

(** X7: without a workspace folder the root is empty and no ignore file is
    consulted: whatever the disk holds, a selected directory contributes
    every file of its enumeration. *)
Theorem no_workspace_no_filtering (h : Host) (files : list FileEntry)
    (p : string) (st : Stats) (rawFiles : list string) :
  workspaceRoot h = "" ->
  stat h p = Some st ->
  isDirectory st = true ->
  findFiles h p = Some rawFiles ->
  (forall u, filterFor h (workspaceRoot h) u = Some true)
  /\ expandStep h (workspaceRoot h) (filterFor h (workspaceRoot h)) files p
     = (files ++ map (fun u => {| abs := u; rel := relative h "" u |})
                     rawFiles)%list.
Proof.
  intros Hroot Hstat Hdir Hfind. rewrite Hroot.
  assert (forall u, filterFor h "" u = Some true) as Hall
    by (intro u; reflexivity).
  split; [exact Hall|].
  assert (forall u, In u rawFiles -> filterFor h "" u <> None) as Htotal
    by (intros u _; rewrite Hall; discriminate).
  rewrite (expandStep_directory h "" (filterFor h "") files p st
             rawFiles Hstat Hdir Hfind Htotal).
  f_equal. f_equal.
  clear. induction rawFiles as [|u rest IH]; simpl; [reflexivity|].
  now rewrite IH.
Qed.

(** The sample disk with no folder open: [b.bin] is no longer ignored. *)
Lemma no_workspace_no_filtering_witness :
  selectedFiles (nodeHost NodeIgnore.ignores "/" None sampleDisk) ["/w"]
  = [ {| abs := "/w/a.txt"; rel := "w/a.txt" |};
      {| abs := "/w/b.bin"; rel := "w/b.bin" |};
      {| abs := "/w/.gitignore"; rel := "w/.gitignore" |} ].
Proof.
  refine (eq_trans
            (proj2 (no_workspace_no_filtering
                      (nodeHost NodeIgnore.ignores "/" None sampleDisk)
                      [] "/w" {| isDirectory := true; size := 4096 |}
                      ["/w/a.txt"; "/w/b.bin"; "/w/.gitignore"]
                      eq_refl eq_refl eq_refl eq_refl)) _).
  reflexivity.
Defined.

(** ** Binary detection *)

Lemma looksBinary_true_iff (buffer : list byte) :
  looksBinary buffer = true <->
  exists j : nat,
    (j < length buffer)%nat /\ (Z.of_nat j < 8192)%Z
    /\ nth_error buffer j = Some x00.
Proof.
  unfold looksBinary. rewrite scanFrom_true. split.
  - intros (j & Hj & Hz). exists j. repeat split; [lia|lia|exact Hz].
  - intros (j & Hlen & Hwin & Hz). exists j. split; [lia|exact Hz].
Qed.

(** X8: how the scan sees a buffer in two parts: it is binary when the first
    part is, or when the second part has a NUL in what is left of the
    8192-byte window after the first. *)
Theorem looksBinary_app (a b : list byte) :
  looksBinary (a ++ b)
  = looksBinary a
    || looksBinary (firstn (Z.to_nat (8192 - Z.of_nat (length a))) b).
Proof.
  apply eq_true_iff_eq.
  rewrite orb_true_iff, !looksBinary_true_iff. split.
  - intros (j & Hlen & Hwin & Hz).
    destruct (Nat.lt_ge_cases j (length a)) as [Hlt|Hge].
    + left. exists j. rewrite nth_error_app1 in Hz by exact Hlt. tauto.
    + right. exists (j - length a)%nat.
      rewrite nth_error_app2 in Hz by exact Hge.
      assert (nth_error (firstn (Z.to_nat (8192 - Z.of_nat (length a))) b)
                (j - length a) = Some x00) as Hf.
      { rewrite nth_error_firstn.
        destruct (Nat.ltb_spec (j - length a)
                    (Z.to_nat (8192 - Z.of_nat (length a)))); [exact Hz|lia]. }
      repeat split; [|lia|exact Hf].
      apply nth_error_Some. congruence.
  - intros [(j & Hlen & Hwin & Hz)|(j & Hlen & Hwin & Hz)].
    + exists j. rewrite length_app, nth_error_app1 by exact Hlen.
      repeat split; [lia|exact Hwin|exact Hz].
    + rewrite length_firstn in Hlen. rewrite nth_error_firstn in Hz.
      destruct (Nat.ltb_spec j (Z.to_nat (8192 - Z.of_nat (length a))));
        [|discriminate Hz].
      exists (length a + j)%nat. rewrite length_app.
      rewrite nth_error_app2 by lia.
      replace (length a + j - length a)%nat with j by lia.
      repeat split; [lia|lia|exact Hz].
Qed.

(** X9: a buffer without a NUL byte is text, however long it is; so is the
    empty buffer. *)
Theorem nul_free_buffer_is_text (buffer : list byte) :
  (forall b : byte, In b buffer -> b <> x00) ->
  looksBinary buffer = false.
Proof.
  intro Hfree. apply not_true_iff_false. rewrite looksBinary_true_iff.
  intros (j & _ & _ & Hz). apply nth_error_In in Hz.
  now apply (Hfree x00 Hz).
Qed.

Lemma nul_free_buffer_is_text_witness :
  looksBinary (list_byte_of_string "hello") = false
  /\ looksBinary [] = false.
Proof.
  split; apply nul_free_buffer_is_text.
  - intros b Hin. simpl in Hin.
    repeat (destruct Hin as [<-|Hin]; [discriminate|]). destruct Hin.
  - intros b [].
Defined.

(** ** The pre-flight gate *)

Lemma sizes_sum_nonneg (h : Host) (files : list FileEntry) :
  (forall p st, stat h p = Some st -> 0 <= size st)%Z ->
  (0 <= fold_right Z.add 0 (map (sizeOrZero h) files))%Z.
Proof.
  intro Hpos. induction files as [|f files IH]; simpl; [lia|].
  assert (0 <= sizeOrZero h f)%Z.
  { unfold sizeOrZero. destruct (stat h (abs f)) as [st|] eqn:E; [|lia].
    exact (Hpos _ _ E). }
  lia.
Qed.

(** X10: count and estimate are additive: those of a list in two parts are
    the sums of those of the parts. *)
Theorem preflight_additive (h : Host) (l1 l2 : list FileEntry) :
  (totalFiles (l1 ++ l2) = totalFiles l1 + totalFiles l2)%Z
  /\ (estimatedBytes h (l1 ++ l2)
      = estimatedBytes h l1 + estimatedBytes h l2)%Z.
Proof.
  split.
  - unfold totalFiles. rewrite length_app. lia.
  - rewrite !estimatedBytes_sum, map_app, fold_right_app.
    generalize (map (sizeOrZero h) l2). intro tail.
    induction (map (sizeOrZero h) l1) as [|x xs IH]; simpl; lia.
Qed.

(** X11: where no size is negative, a selection that needs confirmation
    still needs it after more files are added, before or behind. *)
Theorem confirmation_monotone (h : Host) (l1 l2 : list FileEntry) :
  (forall p st, stat h p = Some st -> 0 <= size st)%Z ->
  requiresConfirmation h l1 = true ->
  requiresConfirmation h (l1 ++ l2) = true
  /\ requiresConfirmation h (l2 ++ l1) = true.
Proof.
  intros Hpos H1. apply requiresConfirmation_iff in H1.
  pose proof (sizes_sum_nonneg h l2 Hpos) as H2.
  rewrite <- estimatedBytes_sum in H2.
  split; apply requiresConfirmation_iff;
    unfold totalFiles in *; rewrite length_app;
    rewrite !estimatedBytes_sum, map_app, fold_right_app;
    rewrite !estimatedBytes_sum in *.
  - assert (forall xs t,
               fold_right Z.add t xs = (fold_right Z.add 0 xs + t)%Z) as Hf
      by (induction xs as [|x xs IH]; intro t; simpl;
          [lia|rewrite IH; lia]).
    rewrite Hf. lia.
  - assert (forall xs t,
               fold_right Z.add t xs = (fold_right Z.add 0 xs + t)%Z) as Hf
      by (induction xs as [|x xs IH]; intro t; simpl;
          [lia|rewrite IH; lia]).
    rewrite Hf. lia.
Qed.

Lemma confirmation_monotone_witness :
  requiresConfirmation manyHost
    (selectedFiles manyHost manyPaths
     ++ [ {| abs := "/big/f0"; rel := "f0" |} ]) = true.
Proof.
  refine (proj1 (confirmation_monotone manyHost
                   (selectedFiles manyHost manyPaths)
                   [ {| abs := "/big/f0"; rel := "f0" |} ] _ _)).
  - apply (size_nonneg manyHost).
    apply nodeHost_coherent. vm_compute. reflexivity.
  - vm_compute. reflexivity.
Defined.

Lemma isYes_true (choice : option string) :
  isYes choice = true <-> choice = Some "Yes".
Proof.
  destruct choice as [answer|]; simpl.
  - rewrite String.eqb_eq. split; [now intros ->|congruence].
  - split; discriminate.
Qed.

(** X12: [buildPromptToFile] leaves no output exactly when the gate asks for
    confirmation and the answer is not "Yes"; in every other case it streams
    the document of the selection. *)
Theorem no_output_iff_declined (h : Host) (fsPaths : list string)
    (choice : option string) :
  (buildPromptToFile h fsPaths choice = None <->
   requiresConfirmation h (selectedFiles h fsPaths) = true
   /\ choice <> Some "Yes")
  /\ (buildPromptToFile h fsPaths choice = None
      \/ buildPromptToFile h fsPaths choice
         = Some (streamDocument h (selectedFiles h fsPaths))).
Proof.
  unfold buildPromptToFile.
  destruct (requiresConfirmation h (selectedFiles h fsPaths)).
  - destruct (isYes choice) eqn:E; simpl.
    + apply isYes_true in E. split; [|now right].
      split; [discriminate|]. intros [_ Hne]. contradiction.
    + split; [|now left]. split; [|reflexivity].
      intros _. split; [reflexivity|].
      intro Hc. apply isYes_true in Hc. congruence.
  - split; [|now right]. split; [discriminate|]. intros [Hc _]. discriminate.
Qed.

(** ** Serialisation *)



Lemma expandPaths_all_unstatable (h : Host) (root : string) (allow : Filter)
    (fsPaths : list string) :
  (forall p, In p fsPaths -> stat h p = None) ->
  expandPaths h root allow fsPaths = [].
Proof.
  intro Hnone. rewrite expandPaths_flat_map.
  induction fsPaths as [|p rest IH]; simpl; [reflexivity|].
  rewrite (entriesOf_unstatable h root allow p) by (apply Hnone; now left).
  apply IH. intros q Hq. apply Hnone. now right.
Qed.

(** X14: a selection none of whose paths can be stat'ed, the empty selection
    among them, needs no confirmation and still gives a document: the
    headings around an empty structure listing and no content section. *)
Theorem empty_selection_document (h : Host) (fsPaths : list string)
    (choice : option string) :
  (forall p, In p fsPaths -> stat h p = None) ->
  selectedFiles h fsPaths = []
  /\ buildPromptToFile h fsPaths choice
     = Some ("# Context Generation Request" ++ LF ++ LF
             ++ "## Project Structure:" ++ LF
             ++ fence ++ LF ++ LF ++ fence ++ LF ++ LF
             ++ "## File Contents:" ++ LF ++ LF)
  /\ buildPrompt h fsPaths
     = "# Context Generation Request" ++ LF ++ LF
       ++ "## Project Structure:" ++ LF
       ++ fence ++ LF ++ LF ++ fence ++ LF ++ LF
       ++ "## File Contents:" ++ LF ++ LF.
Proof.
  intro Hnone.
  assert (selectedFiles h fsPaths = []) as Hsel
    by (apply expandPaths_all_unstatable; exact Hnone).
  split; [exact Hsel|].
  unfold buildPromptToFile, buildPrompt. rewrite Hsel.
  split; reflexivity.
Qed.

Lemma empty_selection_document_witness :
  selectedFiles sampleHost ["/nope"; "/nowhere"] = []
  /\ selectedFiles sampleHost [] = [].
Proof.
  split.
  - refine (proj1 (empty_selection_document sampleHost ["/nope"; "/nowhere"]
                     None _)).
    intros p [<-|[<-|[]]]; reflexivity.
  - apply (proj1 (empty_selection_document sampleHost [] None
                    (fun p Hin => match Hin with end))).
Defined.

Lemma length_append (s1 s2 : string) :
  String.length (s1 ++ s2) = (String.length s1 + String.length s2)%nat.
Proof. induction s1 as [|c s1 IH]; simpl; [reflexivity|now rewrite IH]. Qed.

(** X15: when a text buffer does not decode, the two entry points part: the
    streaming loop has the section header on the stream already and writes
    the marker section after it, so the header stands twice; [buildPrompt]
    appends the marker section alone. *)
Theorem decoding_failure_repeats_header (h : Host) (out : string)
    (f : FileEntry) (buffer : list byte) :
  readFile h (abs f) = Some buffer ->
  looksBinary buffer = false ->
  toString h buffer = None ->
  streamFile h out f
  = out ++ ("### " ++ rel f ++ LF ++ fence ++ LF)
        ++ ("### " ++ rel f ++ LF ++ fence ++ LF
            ++ "[unreadable]" ++ LF ++ fence ++ LF ++ LF)
  /\ appendFile h out f
     = out ++ ("### " ++ rel f ++ LF ++ fence ++ LF
               ++ "[unreadable]" ++ LF ++ fence ++ LF ++ LF)
  /\ streamFile h out f <> appendFile h out f.
Proof.
  intros Hread Htext Hfail.
  destruct (decoding_failure_sections h out f buffer Hread Htext Hfail)
    as [Hs Ha].
  split; [exact Hs|]. split; [exact Ha|].
  rewrite Hs, Ha. intro E.
  apply (f_equal String.length) in E.
  rewrite !length_append in E. simpl in E. lia.
Qed.

(** A decoder that gives up beyond 4 bytes, and the 5 bytes of [a.txt]. *)
Lemma decoding_failure_repeats_header_witness :
  streamFile (limitedHost 4 (Some "/w") sampleDisk) ""
    {| abs := "/w/a.txt"; rel := "a.txt" |}
  <> appendFile (limitedHost 4 (Some "/w") sampleDisk) ""
       {| abs := "/w/a.txt"; rel := "a.txt" |}.
Proof.
  apply (proj2 (proj2 (decoding_failure_repeats_header
                         (limitedHost 4 (Some "/w") sampleDisk) ""
                         {| abs := "/w/a.txt"; rel := "a.txt" |}
                         (list_byte_of_string "hello")
                         eq_refl eq_refl eq_refl))).
Defined.



(** * Properties of the command handlers *)

(** ** The selection *)

Lemma selectedUris_nil (uri : option string) (uris : option (list string))
    (editor : option string) :
  selectedUris uri uris editor = [] <->
  (uris = None \/ uris = Some []) /\ uri = None /\ editor = None.
Proof.
  unfold selectedUris.
  destruct uris as [[|u us]|]; destruct uri as [v|]; destruct editor as [e|];
    split; try discriminate; try tauto;
    try (intros [[H|H] [H1 H2]]; discriminate).
Qed.

Lemma branches_notice (h : Host) (d : Desk) (selected : list string) :
  notice (clipboardBranch h d selected) <> NoSelectionWarning
  /\ notice (fileBranch h d selected) <> NoSelectionWarning.
Proof.
  unfold clipboardBranch, fileBranch. split.
  - destruct (negb (mkdir d (outDir h d))); [discriminate|].
    destruct (sizeOnDisk h d _); [|discriminate].
    destruct (negb _); [discriminate|].
    destruct (textOnDisk h d _); discriminate.
  - destruct (negb (mkdir d (outDir h d))); [discriminate|].
    destruct (negb (showTextDocument d _ _)); [discriminate|].
    destruct (negb (revealFileInOS d _)); discriminate.
Qed.

(** X17: a command ends with the warning that nothing is selected exactly
    when it got no non-empty [uris], no [uri] and there is no active editor;
    it has then created no file and left the clipboard alone.  A non-empty
    [uris] is the selection whatever [uri] and the editor are. *)
Theorem no_selection_warning (h : Host) (d : Desk) (copyToClipboard : bool)
    (uri : option string) (uris : option (list string)) :
  (notice (handlerFactory h d copyToClipboard uri uris) = NoSelectionWarning
   <-> (uris = None \/ uris = Some []) /\ uri = None /\ activeEditor d = None)
  /\ ((uris = None \/ uris = Some []) /\ uri = None /\ activeEditor d = None ->
      handlerFactory h d copyToClipboard uri uris
      = {| notice := NoSelectionWarning; streamed := None;
           clipboard := None |})
  /\ (forall u us, uris = Some (u :: us) ->
        selectedUris uri uris (activeEditor d) = u :: us).
Proof.
  rewrite <- selectedUris_nil. unfold handlerFactory.
  split; [|split].
  - destruct (selectedUris uri uris (activeEditor d)) as [|u us].
    + split; reflexivity.
    + split; [|discriminate]. intro H. exfalso.
      destruct copyToClipboard;
        [apply (proj1 (branches_notice h d (u :: us)) H)
        |apply (proj2 (branches_notice h d (u :: us)) H)].
  - intros ->. reflexivity.
  - intros u us ->. reflexivity.
Qed.

Lemma no_selection_warning_witness :
  handlerFactory sampleHost sampleDesk true None (Some [])
  = {| notice := NoSelectionWarning; streamed := None; clipboard := None |}.
Proof.
  apply (proj1 (proj2 (no_selection_warning sampleHost sampleDesk true None
                         (Some [])))).
  split; [right; reflexivity|]. split; reflexivity.
Defined.

(** ** The name of the context file *)

Lemma digit_isDigit (n : nat) : isDigit (digit n) = true.
Proof.
  unfold digit.
  assert (n mod 10 < 10)%nat as H by (apply Nat.mod_upper_bound; discriminate).
  destruct (n mod 10)%nat as [|[|[|[|[|[|[|[|[|[|k]]]]]]]]]];
    try reflexivity.
  exfalso. lia.
Qed.

Lemma isDigit_not_separator (c : ascii) :
  isDigit c = true -> isDashOrColon c = false /\ Ascii.eqb c "." = false.
Proof.
  destruct c as [[] [] [] [] [] [] [] []]; intro H;
    first [discriminate H|split; reflexivity].
Qed.

Lemma stripDashColon_keep (c : ascii) (s : string) :
  isDashOrColon c = false ->
  stripDashColon (String c s) = String c (stripDashColon s).
Proof. intro H. simpl. now rewrite H. Qed.

Lemma stripDashColon_drop (c : ascii) (s : string) :
  isDashOrColon c = true -> stripDashColon (String c s) = stripDashColon s.
Proof. intro H. simpl. now rewrite H. Qed.

Lemma dropMillis_keep (c : ascii) (s : string) :
  isMillisTail (String c s) = false ->
  dropMillis (String c s) = String c (dropMillis s).
Proof. intro H. unfold dropMillis at 1. fold dropMillis. now rewrite H. Qed.

Lemma dropMillis_stop (c : ascii) (s : string) :
  isMillisTail (String c s) = true -> dropMillis (String c s) = "".
Proof. intro H. unfold dropMillis at 1. fold dropMillis. now rewrite H. Qed.

(** The two [replace] calls on a string of the shape
    [YYYY-MM-DDTHH:mm:ss.sssZ]. *)
Lemma timestamp_shape (y1 y2 y3 y4 m1 m2 d1 d2 h1 h2 i1 i2 s1 s2 f1 f2 f3
                         : ascii) :
  Forall (fun c => isDigit c = true)
    [y1; y2; y3; y4; m1; m2; d1; d2; h1; h2; i1; i2; s1; s2; f1; f2; f3] ->
  timestamp
    (String y1 (String y2 (String y3 (String y4 (String "-"
    (String m1 (String m2 (String "-" (String d1 (String d2 (String "T"
    (String h1 (String h2 (String ":" (String i1 (String i2 (String ":"
    (String s1 (String s2 (String "." (String f1 (String f2 (String f3
    (String "Z" EmptyString))))))))))))))))))))))))
  = String y1 (String y2 (String y3 (String y4 (String m1 (String m2
    (String d1 (String d2 (String "T" (String h1 (String h2 (String i1
    (String i2 (String s1 (String s2 EmptyString)))))))))))))).
Proof.
  intro H.
  repeat match goal with
         | H : Forall _ (_ :: _) |- _ =>
             let Hc := fresh "Hc" in
             let Hr := fresh "Hr" in
             inversion H as [|? ? Hc Hr]; subst; clear H;
             pose proof (proj1 (isDigit_not_separator _ Hc));
             pose proof (proj2 (isDigit_not_separator _ Hc))
         end.
  unfold timestamp.
  repeat first [rewrite stripDashColon_keep by (assumption || reflexivity)
               |rewrite stripDashColon_drop by reflexivity].
  repeat rewrite dropMillis_keep
    by (first [reflexivity
              |unfold isMillisTail;
               match goal with
               | E : Ascii.eqb ?c "." = false |- context [Ascii.eqb ?c "."] =>
                   rewrite E
               end; reflexivity]).
  rewrite dropMillis_stop; [reflexivity|].
  unfold isMillisTail.
  repeat match goal with
         | E : isDigit ?c = true |- context [isDigit ?c] => rewrite E
         end.
  reflexivity.
Qed.

(** X18: the time stamp in the name of the context file is the date and the
    time of day to the second, [YYYYMMDDTHHMMSS]: the two [replace] calls
    take the separators and the milliseconds out of the ISO string.  Two
    commands within the same second therefore get the same file name. *)
Theorem timestamp_of_instant (t : Instant) :
  timestamp (toISOString t)
  = pad4 (year t) ++ pad2 (month t) ++ pad2 (day t) ++ "T"
    ++ pad2 (hours t) ++ pad2 (minutes t) ++ pad2 (seconds t)
  /\ (forall ms : nat,
        timestamp (toISOString
                     (mkInstant (year t) (month t) (day t) (hours t)
                        (minutes t) (seconds t) ms))
        = timestamp (toISOString t)).
Proof.
  assert (forall u : Instant,
             timestamp (toISOString u)
             = pad4 (year u) ++ pad2 (month u) ++ pad2 (day u) ++ "T"
               ++ pad2 (hours u) ++ pad2 (minutes u) ++ pad2 (seconds u))
    as Hfmt.
  { intro u.
    exact (timestamp_shape
             (digit (year u / 1000)) (digit (year u / 100))
             (digit (year u / 10)) (digit (year u))
             (digit (month u / 10)) (digit (month u))
             (digit (day u / 10)) (digit (day u))
             (digit (hours u / 10)) (digit (hours u))
             (digit (minutes u / 10)) (digit (minutes u))
             (digit (seconds u / 10)) (digit (seconds u))
             (digit (milliseconds u / 100)) (digit (milliseconds u / 10))
             (digit (milliseconds u))
             ltac:(repeat constructor; apply digit_isDigit)). }
  split; [apply Hfmt|].
  intro ms. now rewrite !Hfmt.
Qed.

Example timestamp_sample :
  timestamp "2025-11-05T18:24:24.123Z" = "20251105T182424"
  /\ toISOString (mkInstant 2025 11 5 18 24 24 123)
     = "2025-11-05T18:24:24.123Z".
Proof. split; reflexivity. Qed.

(** ** The clipboard command *)

Lemma megabytes_le_5 (bytes : Z) :
  Qle_bool (inject_Z bytes / inject_Z 1024 / inject_Z 1024) (inject_Z 5) = true
  <-> (bytes <= 5 * 2 ^ 20)%Z.
Proof.
  rewrite Qle_bool_iff. unfold Qle, Qdiv, Qmult, Qinv, inject_Z. simpl. lia.
Qed.

(** X19: once the document is streamed, the clipboard command copies it
    when the file has at most 5 * 2^20 bytes and reports the number of
    selected items; a larger file stays on disk, the clipboard is not
    written and the command ends with the warning. *)
Theorem clipboard_size_limit (h : Host) (d : Desk) (selected : list string)
    (text : string) :
  mkdir d (outDir h d) = true ->
  buildPromptToFile h selected (dialog d) = Some text ->
  ((byteLength d text > 5 * 2 ^ 20)%Z ->
   clipboardBranch h d selected
   = {| notice := TooLargeWarning; streamed := Some text;
        clipboard := None |})
  /\ ((byteLength d text <= 5 * 2 ^ 20)%Z ->
      clipboardBranch h d selected
      = {| notice := CopiedInformation (length selected);
           streamed := Some text; clipboard := Some text |}).
Proof.
  intros Hdir Hrun. unfold clipboardBranch.
  rewrite Hdir, Hrun. simpl.
  destruct (Qle_bool _ _) eqn:E.
  - apply megabytes_le_5 in E. split; [lia|reflexivity].
  - apply not_true_iff_false in E. rewrite megabytes_le_5 in E.
    split; [reflexivity|lia].
Qed.

Lemma clipboard_size_limit_witness :
  clipboardBranch sampleHost sampleDesk ["/w/a.txt"]
  = {| notice := CopiedInformation 1;
       streamed := buildPromptToFile sampleHost ["/w/a.txt"] None;
       clipboard := buildPromptToFile sampleHost ["/w/a.txt"] None |}.
Proof.
  refine (proj2 (clipboard_size_limit sampleHost sampleDesk ["/w/a.txt"]
                   (streamDocument sampleHost
                      (selectedFiles sampleHost ["/w/a.txt"]))
                   eq_refl eq_refl) _).
  vm_compute. discriminate.
Defined.

(** X20: the clipboard is written by the clipboard command alone, and only
    with the text of the context file, only when that file has at most
    5 * 2^20 bytes, and only together with the message that the context was
    copied. *)
Theorem clipboard_written_only_when_copied (h : Host) (d : Desk)
    (selected : list string) :
  (forall text : string,
      clipboard (clipboardBranch h d selected) = Some text ->
      notice (clipboardBranch h d selected)
      = CopiedInformation (length selected)
      /\ textOnDisk h d (buildPromptToFile h selected (dialog d)) = Some text
      /\ exists bytes : Z,
           sizeOnDisk h d (buildPromptToFile h selected (dialog d))
           = Some bytes
           /\ (bytes <= 5 * 2 ^ 20)%Z)
  /\ clipboard (fileBranch h d selected) = None.
Proof.
  split.
  - intro text. unfold clipboardBranch.
    destruct (negb (mkdir d (outDir h d))); [discriminate|].
    destruct (sizeOnDisk h d _) as [bytes|]; [|discriminate].
    destruct (Qle_bool _ _) eqn:E; simpl; [|discriminate].
    apply megabytes_le_5 in E.
    destruct (textOnDisk h d _) as [t|]; simpl; [|discriminate].
    intro Ht. inversion Ht; subst.
    split; [reflexivity|]. split; [reflexivity|]. now exists bytes.
  - unfold fileBranch.
    destruct (negb (mkdir d (outDir h d))); [reflexivity|].
    destruct (negb (showTextDocument d _ _)); [reflexivity|].
    destruct (negb (revealFileInOS d _)); reflexivity.
Qed.

Lemma clipboard_written_only_when_copied_witness :
  notice (clipboardBranch sampleHost sampleDesk ["/w/a.txt"])
  = CopiedInformation 1.
Proof.
  refine (proj1 (proj1 (clipboard_written_only_when_copied sampleHost
                          sampleDesk ["/w/a.txt"])
                   (streamDocument sampleHost
                      (selectedFiles sampleHost ["/w/a.txt"])) _)).
  reflexivity.
Defined.

(** X21: when the gate asks for confirmation, the answer is not "Yes" and
    no file of the context file's name exists, the clipboard command does
    not end quietly: [buildPromptToFile] has returned without creating the
    file, the [stat] that follows throws, and the command ends with the
    error message, nothing streamed and nothing copied. *)
Theorem declined_clipboard_command_fails (h : Host) (d : Desk)
    (selected : list string) :
  requiresConfirmation h (selectedFiles h selected) = true ->
  dialog d <> Some "Yes" ->
  stat h (contextFile h d) = None ->
  clipboardBranch h d selected
  = {| notice := GenerationError; streamed := None; clipboard := None |}.
Proof.
  intros Hgate Hno Hmissing. unfold clipboardBranch.
  destruct (negb (mkdir d (outDir h d))); [reflexivity|].
  unfold buildPromptToFile.
  rewrite Hgate, (isYes_false _ Hno). simpl.
  now rewrite Hmissing.
Qed.

Lemma declined_clipboard_command_fails_witness :
  clipboardBranch manyHost sampleDesk manyPaths
  = {| notice := GenerationError; streamed := None; clipboard := None |}.
Proof.
  refine (declined_clipboard_command_fails manyHost sampleDesk manyPaths
            _ _ _).
  - vm_compute. reflexivity.
  - discriminate.
  - vm_compute. reflexivity.
Defined.

(** X22: in the same situation, but with a file of that name left on disk
    by an earlier command, the clipboard command takes the old file for its
    own: it copies the old text and reports the context as copied, though
    nothing was generated. *)
Theorem declined_clipboard_command_copies_stale_file (h : Host) (d : Desk)
    (selected : list string) (st : Stats) (buffer : list byte)
    (old : string) :
  mkdir d (outDir h d) = true ->
  requiresConfirmation h (selectedFiles h selected) = true ->
  dialog d <> Some "Yes" ->
  stat h (contextFile h d) = Some st ->
  (size st <= 5 * 2 ^ 20)%Z ->
  readFile h (contextFile h d) = Some buffer ->
  toString h buffer = Some old ->
  clipboardBranch h d selected
  = {| notice := CopiedInformation (length selected); streamed := None;
       clipboard := Some old |}.
Proof.
  intros Hdir Hgate Hno Hstat Hsize Hread Hdecode. unfold clipboardBranch.
  rewrite Hdir. unfold buildPromptToFile.
  rewrite Hgate, (isYes_false _ Hno). simpl.
  rewrite Hstat. simpl.
  apply megabytes_le_5 in Hsize. rewrite Hsize. simpl.
  now rewrite Hread, Hdecode.
Qed.

Lemma declined_clipboard_command_copies_stale_file_witness :
  clipboardBranch staleHost sampleDesk manyPaths
  = {| notice := CopiedInformation (length manyPaths); streamed := None;
       clipboard := Some "stale" |}.
Proof.
  refine (declined_clipboard_command_copies_stale_file staleHost sampleDesk
            manyPaths {| isDirectory := false; size := 5 |}
            (list_byte_of_string "stale") "stale" eq_refl _ _ _ _ _ _).
  - vm_compute. reflexivity.
  - discriminate.
  - vm_compute. reflexivity.
  - vm_compute. discriminate.
  - vm_compute. reflexivity.
  - reflexivity.
Defined.

(** ** The file command *)

(** X23: the file command after a declined confirmation, where no file of
    the context file's name exists and the editor cannot show a file that
    is not there: the command ends with the error message. *)
Theorem declined_file_command_fails (h : Host) (d : Desk)
    (selected : list string) :
  requiresConfirmation h (selectedFiles h selected) = true ->
  dialog d <> Some "Yes" ->
  readFile h (contextFile h d) = None ->
  showTextDocument d (contextFile h d) None = false ->
  fileBranch h d selected
  = {| notice := GenerationError; streamed := None; clipboard := None |}.
Proof.
  intros Hgate Hno Hmissing Hshow. unfold fileBranch.
  destruct (negb (mkdir d (outDir h d))); [reflexivity|].
  unfold buildPromptToFile.
  rewrite Hgate, (isYes_false _ Hno). simpl.
  now rewrite Hmissing, Hshow.
Qed.

Lemma declined_file_command_fails_witness :
  fileBranch manyHost sampleDesk manyPaths
  = {| notice := GenerationError; streamed := None; clipboard := None |}.
Proof.
  refine (declined_file_command_fails manyHost sampleDesk manyPaths _ _ _ _).
  - vm_compute. reflexivity.
  - discriminate.
  - vm_compute. reflexivity.
  - reflexivity.
Defined.
